(** * dashboardd: the blockchain dashboard's data endpoints and metric tiles

    A shallow embedding of
      - [pages/api/blockchain-data] (the read endpoint, cached for one hour),
      - [pages/api/update-data.js]  (the refresh endpoint, behind a bearer check),
      - [components/BlockchainCard.js] (the card and its 30-day-change tiles),
      - [pages/index] (the dashboard page that polls the read endpoint),
    over a small model of the JavaScript values, exceptions and effects the
    three files use. *)

From Stdlib Require Import ZArith String Ascii List Floats Lia.
From stdpp Require Import base option list gmap strings pretty.

Set Warnings "-register-all".

Open Scope string_scope.
Open Scope list_scope.
Open Scope Z_scope.

(** ** JavaScript values and the conversions the program relies on *)

Module JS.

(** Values that reach the program: parsed JSON, plus [undefined] (a missing
    property or array element). Numbers are IEEE-754 doubles, as in JavaScript.
    An object lists its own properties in enumeration order. *)
Inductive value :=
| VUndef
| VNull
| VBool (b : bool)
| VNum (x : float)
| VStr (s : string)
| VArr (elems : list value)
| VObj (props : list (string * value)).

(** The exceptions the program can meet. A rejected [fetch] is a TypeError,
    an unparsable body a SyntaxError, [toISOString] on an invalid date a
    RangeError. *)
Inductive js_error := TypeError | RangeError | SyntaxError.

(** The outcome of evaluating an expression: a value or a thrown exception. *)
Inductive completion (A : Type) :=
| Normal (a : A)
| Throw (e : js_error).
Arguments Normal {A} a.
Arguments Throw {A} e.

#[global] Instance completion_ret : MRet completion := @Normal.
#[global] Instance completion_bind : MBind completion :=
  fun A B f c => match c with Normal a => f a | Throw e => Throw e end.

(** What the model takes from the engine without defining it: the three
    string conversions of ECMAScript ([StringToNumber], [Number::toString],
    [Date.parse], whose result on strings outside the ISO format is left to the
    implementation). [None] is the time value NaN. *)
Class Platform := {
  StringToNumber : string -> float;
  NumberToString : float -> string;
  Date_parse : string -> option Z
}.

(** [o[key]] on an object built from a list of properties. *)
Fixpoint lookup_prop (key : string) (props : list (string * value)) : option value :=
  match props with
  | [] => None
  | (k, v) :: rest => if String.eqb k key then Some v else lookup_prop key rest
  end.

(** [o[key] = v]: overwrite in place, or append a new property. (Keys here
    are never array indices, so enumeration order is insertion order.) *)
Fixpoint set_prop (key : string) (v : value) (props : list (string * value))
  : list (string * value) :=
  match props with
  | [] => [(key, v)]
  | (k, old) :: rest =>
      if String.eqb k key then (k, v) :: rest else (k, old) :: set_prop key v rest
  end.

(** Reading a property, for the names the program reads ([date], [tvl],
    [prices], [price]): none of them is a property of arrays, strings, numbers
    or booleans, nor of [Object.prototype]. [null] and [undefined] throw. *)
Definition get_field (v : value) (key : string) : completion value :=
  match v with
  | VUndef | VNull => Throw TypeError
  | VObj props => Normal (default VUndef (lookup_prop key props))
  | _ => Normal VUndef
  end.

(** [v.map(f)]: only arrays have the method; the callback runs left to right
    and the first exception ends the call. *)
Fixpoint map_elems {B} (f : value -> completion B) (l : list value)
  : completion (list B) :=
  match l with
  | [] => Normal []
  | x :: rest =>
      match f x with
      | Throw e => Throw e
      | Normal y =>
          match map_elems f rest with
          | Throw e => Throw e
          | Normal ys => Normal (y :: ys)
          end
      end
  end.

Definition Array_map {B} (f : value -> completion B) (v : value)
  : completion (list B) :=
  match v with
  | VArr l => map_elems f l
  | _ => Throw TypeError
  end.

(** The array pattern [[a, b]] of a callback parameter: arrays give their
    first two elements ([undefined] when missing), strings their first two
    characters, anything else is not iterable. *)
Definition destructure_pair (v : value) : completion (value * value) :=
  match v with
  | VArr l => Normal (nth 0 l VUndef, nth 1 l VUndef)
  | VStr s =>
      Normal (match s with
              | EmptyString => (VUndef, VUndef)
              | String a EmptyString => (VStr (String a EmptyString), VUndef)
              | String a (String b _) =>
                  (VStr (String a EmptyString), VStr (String b EmptyString))
              end)
  | _ => Throw TypeError
  end.

(** ToBoolean. *)
Definition truthy (v : value) : bool :=
  match v with
  | VUndef | VNull => false
  | VBool b => b
  | VNum x => negb (is_zero x || is_nan x)
  | VStr s => negb (String.eqb s "")
  | VArr _ | VObj _ => true
  end.

Section Conversions.
Context `{Platform}.

(** ToString; an array joins its elements with commas, [null] and
    [undefined] elements giving the empty string. *)
Fixpoint ToString (v : value) : string :=
  match v with
  | VUndef => "undefined"
  | VNull => "null"
  | VBool true => "true"
  | VBool false => "false"
  | VNum x => NumberToString x
  | VStr s => s
  | VArr l =>
      String.concat ","
        (map (fun e => match e with VUndef | VNull => "" | _ => ToString e end) l)
  | VObj _ => "[object Object]"
  end.

(** ToPrimitive: arrays and plain objects go through their [toString].
    This is the conversion of an object that has no own [toString] or
    [valueOf] property; a parsed object that carries one (which is then not a
    function) makes the real conversion throw a TypeError, which is not
    modelled. *)
Definition ToPrimitive (v : value) : value :=
  match v with
  | VArr _ | VObj _ => VStr (ToString v)
  | _ => v
  end.

(** ToNumber. *)
Definition ToNumber (v : value) : float :=
  match ToPrimitive v with
  | VUndef => nan
  | VNull => 0%float
  | VBool true => 1%float
  | VBool false => 0%float
  | VNum x => x
  | VStr s => StringToNumber s
  | VArr _ | VObj _ => nan
  end.

(** [a > 0], [a - b] on arbitrary values: both sides become numbers (the
    right operand of the comparison is the number 0, so it is numeric). *)
Definition gt_zero (v : value) : bool := (0 <? ToNumber v)%float.

End Conversions.

(** *** Dates: time values are integral milliseconds since the epoch *)

(** Truncation towards zero of a finite double. *)
Definition float_trunc (x : float) : Z :=
  match Prim2SF x with
  | S754_finite s m e =>
      let n := if 0 <=? e then Z.pos m * 2 ^ e else Z.pos m / 2 ^ (- e) in
      if s then - n else n
  | _ => 0
  end.

(** TimeClip: [None] stands for NaN, the invalid date. *)
Definition TimeClip (x : float) : option Z :=
  if is_nan x || is_infinity x then None
  else if (8.64e15 <? abs x)%float then None
  else Some (float_trunc x).

Definition digit_char (d : Z) : ascii := ascii_of_nat (48 + Z.to_nat d).

(** The last [width] decimal digits of [n], in front of [acc]. *)
Fixpoint digits (width : nat) (n : Z) (acc : string) : string :=
  match width with
  | O => acc
  | S w => digits w (n / 10) (String (digit_char (n mod 10)) acc)
  end.

(** Year, month and day of a day number counted from 1970-01-01
    (proleptic Gregorian calendar). *)
Definition civil_from_days (day : Z) : Z * Z * Z :=
  let z := day + 719468 in
  let era := z / 146097 in
  let doe := z mod 146097 in
  let yoe := (doe - doe / 1460 + doe / 36524 - doe / 146096) / 365 in
  let doy := doe - (365 * yoe + yoe / 4 - yoe / 100) in
  let mp := (5 * doy + 2) / 153 in
  let d := doy - (153 * mp + 2) / 5 + 1 in
  let m := if mp <? 10 then mp + 3 else mp - 9 in
  let y := yoe + era * 400 + (if m <=? 2 then 1 else 0) in
  (y, m, d).

(** [Date.prototype.toISOString] on a valid time value:
    YYYY-MM-DDTHH:mm:ss.sssZ, the year with a sign and six digits outside
    0..9999. *)
Definition iso_string (t : Z) : string :=
  let '(y, m, d) := civil_from_days (t / 86400000) in
  let ms := t mod 86400000 in
  let sign := if y <? 0 then "-" else "+" in
  let year :=
    if (0 <=? y) && (y <=? 9999) then digits 4 y ""
    else (sign ++ digits 6 (Z.abs y) "")%string in
  let hh := digits 2 (ms / 3600000) "" in
  let mm := digits 2 (ms / 60000 mod 60) "" in
  let ss := digits 2 (ms / 1000 mod 60) "" in
  let sss := digits 3 (ms mod 1000) "" in
  (year ++ "-" ++ digits 2 m "" ++ "-" ++ digits 2 d "" ++ "T"
   ++ hh ++ ":" ++ mm ++ ":" ++ ss ++ "." ++ sss ++ "Z")%string.

Definition toISOString (d : option Z) : completion string :=
  match d with
  | Some t => Normal (iso_string t)
  | None => Throw RangeError
  end.

Section Dates.
Context `{Platform}.

(** [new Date(v)]: a string is parsed, anything else is a number of
    milliseconds. *)
Definition new_Date (v : value) : option Z :=
  match ToPrimitive v with
  | VStr s => Date_parse s
  | p => TimeClip (ToNumber p)
  end.

End Dates.

(** [x.toFixed(2)] for a number: the nearest multiple of 1/100 (the larger
    one on a tie), computed exactly, with two decimals. *)
Section Formatting.
Context `{Platform}.

Definition hundredths (x : float) : Z :=
  match Prim2SF x with
  | S754_finite _ m e =>
      if 0 <=? e then Z.pos m * 2 ^ e * 100
      else (2 * (Z.pos m * 100) + 2 ^ (- e)) / (2 * 2 ^ (- e))
  | _ => 0
  end.

Definition toFixed2 (x : float) : string :=
  if is_nan x || is_infinity x then NumberToString x
  else
    let sign := if (x <? 0)%float then "-" else "" in
    let a := abs x in
    if (1e21 <=? a)%float then (sign ++ NumberToString a)%string
    else
      let n := hundredths a in
      let int_part := pretty (n / 100) in
      let frac_part := digits 2 (n mod 100) "" in
      (sign ++ int_part ++ "." ++ frac_part)%string.

End Formatting.

(** What JSON.stringify followed by JSON.parse leaves of a value: the form
    in which the key-value store keeps it. *)
Fixpoint jsonify (v : value) : value :=
  match v with
  | VNum x =>
      if is_nan x || is_infinity x then VNull
      else if is_zero x then VNum 0%float else VNum x
  | VArr l =>
      VArr (map (fun e => match e with VUndef => VNull | _ => jsonify e end) l)
  | VObj props =>
      VObj (flat_map
              (fun p => match p with
                        | (k, e) =>
                            match e with
                            | VUndef => []
                            | _ => [(k, jsonify e)]
                            end
                        end) props)
  | _ => v
  end.

End JS.

(** ** The world the handlers run in *)

Module Effects.
Import JS.

(** What [await fetch(url)] gives: the promise rejects (a transport
    failure), or resolves to a response whose body is JSON ([Some]) or not
    ([None]: [response.json()] rejects). *)
Record fetch_response := { status : Z; body : option value }.

Inductive fetch_result :=
| FetchRejects
| FetchResolves (r : fetch_response).

(** The effects a handler performs, in the order it performs them. *)
Inductive event :=
| EvKvGet (key : string)
| EvKvSet (key : string) (v : value)
| EvFetch (url : string)
| EvTimeout (ms : Z)
| EvConsoleError (msg : string) (err : option js_error).

(** The environment of one handler run: what each upstream URL answers, and
    what the wall clock reads after an effect started at a given reading. *)
Record env := {
  upstream : string -> fetch_result;
  tick : Z -> event -> Z
}.

(** The key-value store, the wall clock (milliseconds since the epoch) and
    the effects performed so far. The store is taken to be reliable: [get] and
    [set] do not fail. *)
Record world := {
  kv : gmap string value;
  clock : Z;
  trace : list event
}.

(** Computations: state passing over the world, with exceptions. *)
Definition M (A : Type) : Type := world -> completion A * world.

#[global] Instance M_ret : MRet M := fun A a w => (Normal a, w).
#[global] Instance M_bind : MBind M :=
  fun A B f m w =>
    match m w with
    | (Normal a, w') => f a w'
    | (Throw e, w') => (Throw e, w')
    end.

Definition lift {A} (c : completion A) : M A := fun w => (c, w).

(** [try { body } catch (error) { handler }] *)
Definition try_catch {A} (body : M A) (handler : js_error -> M A) : M A :=
  fun w =>
    match body w with
    | (Throw e, w') => handler e w'
    | r => r
    end.

(** [for (const x of l) { body }], the loop's variables threaded as [s]. *)
Fixpoint for_of {A S} (l : list A) (body : A -> S -> M S) (s : S) : M S :=
  match l with
  | [] => mret s
  | x :: rest => s' ← body x s; for_of rest body s'
  end.

(** [new Date()] reads the clock. *)
Definition Date_now : M (option Z) := fun w => (Normal (Some (clock w)), w).

(** [new URLSearchParams({...}).toString()], for names and values that need
    no percent-encoding. *)
Definition URLSearchParams (params : list (string * string)) : string :=
  String.concat "&" (map (fun p => (fst p ++ "=" ++ snd p)%string) params).

Section WithEnv.
Context (E : env).

(** One effect: it is recorded, and the clock moves on. *)
Definition step (e : event) (w : world) : world :=
  {| kv := kv w; clock := tick E (clock w) e; trace := trace w ++ [e] |}.

Definition emit (e : event) : M unit := fun w => (Normal tt, step e w).

(** [await kv.get(key)]: [null] for a key that is not there. *)
Definition kv_get (key : string) : M value :=
  fun w => (Normal (default VNull (kv w !! key)), step (EvKvGet key) w).

(** [await kv.set(key, v)]: the store keeps the JSON form of [v]. *)
Definition kv_set (key : string) (v : value) : M unit :=
  fun w =>
    let w' := step (EvKvSet key v) w in
    (Normal tt,
     {| kv := <[key := jsonify v]> (kv w'); clock := clock w'; trace := trace w' |}).

(** [await fetch(url)] *)
Definition fetch (url : string) : M fetch_response :=
  fun w =>
    (match upstream E url with
     | FetchRejects => Throw TypeError
     | FetchResolves r => Normal r
     end, step (EvFetch url) w).

(** [await response.json()] *)
Definition json (r : fetch_response) : M value :=
  match body r with
  | Some v => lift (Normal v)
  | None => lift (Throw SyntaxError)
  end.

(** [await new Promise(resolve => setTimeout(resolve, ms))] *)
Definition setTimeout (ms : Z) : M unit := emit (EvTimeout ms).

(** [console.error(msg)] and [console.error(msg, error)] *)
Definition console_error (msg : string) (err : option js_error) : M unit :=
  emit (EvConsoleError msg err).

End WithEnv.

(** The request, as far as the handlers read it: [req.headers.authorization]. *)
Record request := { authorization : option string }.

(** [res.status(code).json(body)] *)
Record http_response := { res_status : Z; res_body : value }.

(** The identifiers of one chain at the two upstream services. *)
Record chain_ids := { defillama : string; coingecko : string }.

(** [a - b < limit] on two dates: false when either is invalid (NaN). Both
    time values are integers below 2^53 in magnitude, and so is [limit] here,
    so the comparison of the rounded difference is the comparison in Z. *)
Definition elapsed_lt (a b : option Z) (limit : Z) : bool :=
  match a, b with
  | Some ta, Some tb => ta - tb <? limit
  | _, _ => false
  end.

End Effects.

(** ** The read endpoint, [/api/blockchain-data] *)

Module BlockchainData.
Import JS Effects.

(** Dictionary mapping blockchain names to their identifiers in DeFiLlama
    and CoinGecko, in the order [Object.entries] lists it. *)
Definition BLOCKCHAIN_MAPPING : list (string * chain_ids) :=
  [ ("Aptos", {| defillama := "aptos"; coingecko := "aptos" |});
    ("Avalanche", {| defillama := "Avalanche"; coingecko := "avalanche-2" |});
    ("Core DAO", {| defillama := "core"; coingecko := "coredaoorg" |});
    ("Flow", {| defillama := "flow"; coingecko := "flow" |});
    ("Injective", {| defillama := "injective"; coingecko := "injective-protocol" |});
    ("Optimism", {| defillama := "optimism"; coingecko := "optimism" |});
    ("Polygon", {| defillama := "polygon"; coingecko := "matic-network" |});
    ("XRP/XRPL", {| defillama := "XRPL"; coingecko := "ripple" |});
    ("Sei", {| defillama := "sei"; coingecko := "sei-network" |}) ].

Section Handler.
Context `{Platform} (E : env).

(** Fetch TVL data from DeFiLlama *)
Definition fetchTvlData (blockchainId : string) : M value :=
  try_catch
    (let url := ("https://api.llama.fi/v2/historicalChainTvl/" ++ blockchainId)%string in
     response ← fetch E url;
     if status response =? 200 then
       data ← json response;
       points ← lift (Array_map (fun item =>
                  d ← get_field item "date";
                  date ← toISOString (TimeClip (ToNumber d * 1000)%float);
                  tvl ← get_field item "tvl";
                  mret (VObj [("date", VStr date); ("tvl", tvl)])) data);
       mret (VArr points)
     else
       console_error E
         ("Error fetching TVL data for " ++ blockchainId ++ ": "
          ++ pretty (status response))%string None;;
       mret (VArr []))
    (fun error =>
       console_error E
         ("Exception when fetching TVL data for " ++ blockchainId ++ ":")%string
         (Some error);;
       mret (VArr [])).

(** Fetch price data from CoinGecko *)
Definition fetchPriceData (coinId : string) : M value :=
  try_catch
    (let url := ("https://api.coingecko.com/api/v3/coins/" ++ coinId ++ "/market_chart")%string in
     let params :=
       URLSearchParams [("vs_currency", "usd"); ("days", "90"); ("interval", "daily")] in
     response ← fetch E (url ++ "?" ++ params)%string;
     if status response =? 200 then
       data ← json response;
       p ← lift (get_field data "prices");
       let prices := if truthy p then p else VArr [] in
       points ← lift (Array_map (fun item =>
                  '(timestamp, price) ← destructure_pair item;
                  date ← toISOString (new_Date timestamp);
                  mret (VObj [("date", VStr date); ("timestamp", timestamp);
                              ("price", price)])) prices);
       mret (VArr points)
     else
       console_error E
         ("Error fetching price data for " ++ coinId ++ ": "
          ++ pretty (status response))%string None;;
       mret (VArr []))
    (fun error =>
       console_error E
         ("Exception when fetching price data for " ++ coinId ++ ":")%string
         (Some error);;
       mret (VArr [])).

(** The part of the handler after the freshness check: fetch new data for
    each blockchain, store it, return it. *)
Definition refresh : M http_response :=
  '(tvlData, priceData) ←
    for_of BLOCKCHAIN_MAPPING
      (fun '(blockchain, ids) '(tvlData, priceData) =>
         tvl ← fetchTvlData (defillama ids);
         let tvlData := set_prop blockchain tvl tvlData in
         setTimeout E 1000;;
         price ← fetchPriceData (coingecko ids);
         let priceData := set_prop blockchain price priceData in
         setTimeout E 1000;;
         mret (tvlData, priceData))
      ([], []);
  let newData := VObj [("tvl_data", VObj tvlData); ("price_data", VObj priceData)] in
  now ← Date_now;
  newLastUpdated ← lift (toISOString now);
  kv_set E "blockchain_data" newData;;
  kv_set E "last_updated" (VStr newLastUpdated);;
  mret {| res_status := 200;
          res_body := VObj [("data", newData); ("lastUpdated", VStr newLastUpdated)] |}.

Definition handler (req : request) : M http_response :=
  cachedData ← kv_get E "blockchain_data";
  lastUpdated ← kv_get E "last_updated";
  if truthy cachedData && truthy lastUpdated then
    let lastUpdatedTime := new_Date lastUpdated in
    currentTime ← Date_now;
    if elapsed_lt currentTime lastUpdatedTime 3600000 then
      mret {| res_status := 200;
              res_body := VObj [("data", cachedData); ("lastUpdated", lastUpdated)] |}
    else refresh
  else refresh.

End Handler.
End BlockchainData.

(** ** The refresh endpoint, [/api/update-data] *)

Module UpdateData.
Import JS Effects.

(** Dictionary mapping blockchain names to their identifiers in DeFiLlama
    and CoinGecko, in the order [Object.entries] lists it. *)
Definition BLOCKCHAIN_MAPPING : list (string * chain_ids) :=
  [ ("Aptos", {| defillama := "aptos"; coingecko := "aptos" |});
    ("Avalanche", {| defillama := "Avalanche"; coingecko := "avalanche-2" |});
    ("Core DAO", {| defillama := "core"; coingecko := "coredaoorg" |});
    ("Flow", {| defillama := "flow"; coingecko := "flow" |});
    ("Injective", {| defillama := "injective"; coingecko := "injective-protocol" |});
    ("Optimism", {| defillama := "optimism"; coingecko := "optimism" |});
    ("Polygon", {| defillama := "polygon"; coingecko := "matic-network" |});
    ("XRP/XRPL", {| defillama := "XRPL"; coingecko := "ripple" |});
    ("Sei", {| defillama := "sei"; coingecko := "sei-network" |}) ].

Section Handler.
Context `{Platform} (E : env).

(** Fetch TVL data from DeFiLlama *)
Definition fetchTvlData (blockchainId : string) : M value :=
  try_catch
    (let url := ("https://api.llama.fi/v2/historicalChainTvl/" ++ blockchainId)%string in
     response ← fetch E url;
     if status response =? 200 then
       data ← json response;
       points ← lift (Array_map (fun item =>
                  d ← get_field item "date";
                  date ← toISOString (TimeClip (ToNumber d * 1000)%float);
                  tvl ← get_field item "tvl";
                  mret (VObj [("date", VStr date); ("tvl", tvl)])) data);
       mret (VArr points)
     else
       console_error E
         ("Error fetching TVL data for " ++ blockchainId ++ ": "
          ++ pretty (status response))%string None;;
       mret (VArr []))
    (fun error =>
       console_error E
         ("Exception when fetching TVL data for " ++ blockchainId ++ ":")%string
         (Some error);;
       mret (VArr [])).

(** Fetch price data from CoinGecko *)
Definition fetchPriceData (coinId : string) : M value :=
  try_catch
    (let url := ("https://api.coingecko.com/api/v3/coins/" ++ coinId ++ "/market_chart")%string in
     let params :=
       URLSearchParams [("vs_currency", "usd"); ("days", "90"); ("interval", "daily")] in
     response ← fetch E (url ++ "?" ++ params)%string;
     if status response =? 200 then
       data ← json response;
       p ← lift (get_field data "prices");
       let prices := if truthy p then p else VArr [] in
       points ← lift (Array_map (fun item =>
                  '(timestamp, price) ← destructure_pair item;
                  date ← toISOString (new_Date timestamp);
                  mret (VObj [("date", VStr date); ("timestamp", timestamp);
                              ("price", price)])) prices);
       mret (VArr points)
     else
       console_error E
         ("Error fetching price data for " ++ coinId ++ ": "
          ++ pretty (status response))%string None;;
       mret (VArr []))
    (fun error =>
       console_error E
         ("Exception when fetching price data for " ++ coinId ++ ":")%string
         (Some error);;
       mret (VArr [])).

(** [!authHeader || !authHeader.startsWith('Bearer ')] *)
Definition unauthorized (authHeader : option string) : bool :=
  match authHeader with
  | None => true
  | Some h => negb (truthy (VStr h)) || negb (String.prefix "Bearer " h)
  end.

Definition handler (req : request) : M http_response :=
  let authHeader := authorization req in
  if unauthorized authHeader then
    mret {| res_status := 401; res_body := VObj [("error", VStr "Unauthorized")] |}
  else
    '(tvlData, priceData) ←
      for_of BLOCKCHAIN_MAPPING
        (fun '(blockchain, ids) '(tvlData, priceData) =>
           tvl ← fetchTvlData (defillama ids);
           let tvlData := set_prop blockchain tvl tvlData in
           setTimeout E 1000;;
           price ← fetchPriceData (coingecko ids);
           let priceData := set_prop blockchain price priceData in
           setTimeout E 1000;;
           mret (tvlData, priceData))
        ([], []);
    let newData := VObj [("tvl_data", VObj tvlData); ("price_data", VObj priceData)] in
    now ← Date_now;
    newLastUpdated ← lift (toISOString now);
    kv_set E "blockchain_data" newData;;
    kv_set E "last_updated" (VStr newLastUpdated);;
    mret {| res_status := 200;
            res_body := VObj [("success", VBool true);
                              ("lastUpdated", VStr newLastUpdated)] |}.

End Handler.
End UpdateData.

(** ** The card component's metrics, [components/BlockchainCard.js] *)

Module BlockchainCard.
Import JS.

(** An element of [formattedTvlData]: [{date: Date, tvl}]. *)
Record tvl_point := { tvl_date : option Z; tvl : value }.

(** An element of [formattedPriceData]: [{date: Date, price}]. *)
Record price_point := { price_date : option Z; price : value }.

(** What the tiles show. *)
Record metrics := {
  currentTvl : value;
  tvlMonthlyChange : float;
  currentPrice : value;
  priceMonthlyChange : float
}.

(** [a[i]] for a number [i]: [undefined] out of range. *)
Definition at_index {A} (a : list A) (i : Z) : option A :=
  if i <? 0 then None else a !! Z.to_nat i.

(** [a[i].field]: reading a property of [undefined] throws. *)
Definition field_at {A} (a : list A) (i : Z) (field : A -> value) : completion value :=
  match at_index a i with
  | Some p => Normal (field p)
  | None => Throw TypeError
  end.

(** [length > 30 ? length - 31 : 0] *)
Definition monthAgoIndex (length : Z) : Z :=
  if 30 <? length then length - 31 else 0.

Section Metrics.
Context `{Platform}.

(** Format TVL data for plotting *)
Definition formattedTvlData (tvlData : value) : completion (list tvl_point) :=
  Array_map (fun item =>
    d ← get_field item "date";
    v ← get_field item "tvl";
    mret {| tvl_date := new_Date d; tvl := v |}) tvlData.

(** Format price data for plotting *)
Definition formattedPriceData (priceData : value) : completion (list price_point) :=
  Array_map (fun item =>
    d ← get_field item "date";
    v ← get_field item "price";
    mret {| price_date := new_Date d; price := v |}) priceData.

(** [monthAgo > 0 ? ((current - monthAgo) / monthAgo) * 100 : 0] *)
Definition monthlyChange (current monthAgo : value) : float :=
  if gt_zero monthAgo
  then ((ToNumber current - ToNumber monthAgo) / ToNumber monthAgo * 100)%float
  else 0%float.

(** Calculate metrics *)
Definition calculate (tvlData priceData : value) : completion metrics :=
  formattedTvlData ← formattedTvlData tvlData;
  formattedPriceData ← formattedPriceData priceData;
  let tvlLength := Z.of_nat (length formattedTvlData) in
  currentTvl ←
    (if 0 <? tvlLength then field_at formattedTvlData (tvlLength - 1) tvl
     else Normal (VNum 0));
  let monthAgoTvlIndex := monthAgoIndex tvlLength in
  monthAgoTvl ←
    (if 0 <? tvlLength then field_at formattedTvlData monthAgoTvlIndex tvl
     else Normal (VNum 0));
  let tvlMonthlyChange := monthlyChange currentTvl monthAgoTvl in
  let priceLength := Z.of_nat (length formattedPriceData) in
  currentPrice ←
    (if 0 <? priceLength then field_at formattedPriceData (priceLength - 1) price
     else Normal (VNum 0));
  let monthAgoPriceIndex := monthAgoIndex priceLength in
  monthAgoPrice ←
    (if 0 <? priceLength then field_at formattedPriceData monthAgoPriceIndex price
     else Normal (VNum 0));
  let priceMonthlyChange := monthlyChange currentPrice monthAgoPrice in
  mret {| currentTvl := currentTvl; tvlMonthlyChange := tvlMonthlyChange;
          currentPrice := currentPrice; priceMonthlyChange := priceMonthlyChange |}.

(** The text of a change tile:
    [{change >= 0 ? '+' : ''}{change.toFixed(2)}%] *)
Definition changeText (change : float) : string :=
  ((if (0 <=? change)%float then "+" else "") ++ toFixed2 change ++ "%")%string.

End Metrics.
End BlockchainCard.

(** ** The refresh routine as the specification describes it *)

Module Aggregator.
Import JS Effects.

Section Spec.
Context (E : env).
Context (tvlFetcher priceFetcher : string -> M value).
Context (ChainMapping : list (string * chain_ids)).

(** Following the specification's words: one round of the loop invokes the
    TVL fetcher, waits one second, invokes the price fetcher, waits one second,
    and accumulates the two results into the Dataset. *)
Definition round (entry : string * chain_ids)
    (acc : list (string * value) * list (string * value))
  : M (list (string * value) * list (string * value)) :=
  tvl ← tvlFetcher (defillama (snd entry));
  setTimeout E 1000;;
  price ← priceFetcher (coingecko (snd entry));
  setTimeout E 1000;;
  mret (set_prop (fst entry) tvl (fst acc), set_prop (fst entry) price (snd acc)).

(** Following the specification's words: the rounds run for each entry of
    the chain mapping, in its fixed order, strictly one after the other. *)
Definition collect : M (list (string * value) * list (string * value)) :=
  for_of ChainMapping round ([], []).

(** Following the specification's words: produce a freshness timestamp (the
    current time) alongside the Dataset, write both to the cache store, then
    return the Dataset and the timestamp to the caller. *)
Definition aggregate : M (value * string) :=
  series ← collect;
  let dataset := VObj [("tvl_data", VObj (fst series)); ("price_data", VObj (snd series))] in
  now ← Date_now;
  lastUpdated ← lift (toISOString now);
  kv_set E "blockchain_data" dataset;;
  kv_set E "last_updated" (VStr lastUpdated);;
  mret (dataset, lastUpdated).

End Spec.
End Aggregator.

(** ** An engine to run the model on concrete inputs *)

Module Engine.
Import JS.

(** Days from 1970-01-01 to a date of the proleptic Gregorian calendar. *)
Definition days_from_civil (y m d : Z) : Z :=
  let y' := if m <=? 2 then y - 1 else y in
  let era := y' / 400 in
  let yoe := y' - era * 400 in
  let doy := (153 * (if 2 <? m then m - 3 else m + 9) + 2) / 5 + d - 1 in
  let doe := yoe * 365 + yoe / 4 - yoe / 100 + doy in
  era * 146097 + doe - 719468.

(** The number a string of decimal digits writes; [None] on any other
    character and on the empty string. *)
Fixpoint read_digits (s : string) (acc : Z) : option Z :=
  match s with
  | EmptyString => Some acc
  | String c rest =>
      let n := Z.of_nat (nat_of_ascii c) in
      if (48 <=? n) && (n <=? 57) then read_digits rest (10 * acc + (n - 48))
      else None
  end.

Definition number_at (s : string) (start len : nat) : option Z :=
  let part := String.substring start len s in
  if Nat.eqb (String.length part) len then
    match part with EmptyString => None | _ => read_digits part 0 end
  else None.

Definition days_in_month (y m : Z) : Z :=
  if m =? 2 then
    if ((y mod 4 =? 0) && negb (y mod 100 =? 0)) || (y mod 400 =? 0) then 29 else 28
  else if (m =? 4) || (m =? 6) || (m =? 9) || (m =? 11) then 30 else 31.

(** The rest of a timestamp after the year: -MM-DDTHH:mm:ss.sssZ *)
Definition parse_after_year (y : Z) (s : string) : option Z :=
  if negb (String.eqb (String.substring 0 1 s) "-" && String.eqb (String.substring 3 1 s) "-"
           && String.eqb (String.substring 6 1 s) "T" && String.eqb (String.substring 9 1 s) ":"
           && String.eqb (String.substring 12 1 s) ":" && String.eqb (String.substring 15 1 s) "."
           && String.eqb (String.substring 19 1 s) "Z" && Nat.eqb (String.length s) 20)
  then None
  else
    m ← number_at s 1 2; d ← number_at s 4 2; hh ← number_at s 7 2;
    mm ← number_at s 10 2; ss ← number_at s 13 2; sss ← number_at s 16 3;
    if (1 <=? m) && (m <=? 12) && (1 <=? d) && (d <=? days_in_month y m)
       && (hh <=? 23) && (mm <=? 59) && (ss <=? 59)
    then
      let t := days_from_civil y m d * 86400000 + hh * 3600000 + mm * 60000
               + ss * 1000 + sss in
      if Z.abs t <=? 8640000000000000 then Some t else None
    else None.

(** [Date.parse] on the timestamps [toISOString] writes (a four-digit year,
    or a sign and six digits); every other string is taken as invalid. *)
Definition parse_iso (s : string) : option Z :=
  match s with
  | String "+" rest =>
      y ← number_at rest 0 6; parse_after_year y (String.substring 6 20 rest)
  | String "-" rest =>
      y ← number_at rest 0 6;
      if y =? 0 then None else parse_after_year (- y) (String.substring 6 20 rest)
  | _ => y ← number_at s 0 4; parse_after_year y (String.substring 4 21 s)
  end.

(** StringToNumber on the empty string and on decimal integers below 2^53;
    every other string is taken as NaN. *)
Definition integer_of_string (s : string) : float :=
  match s with
  | EmptyString => 0%float
  | _ =>
      match read_digits s 0 with
      | Some n => if n <? 2 ^ 53 then of_uint63 (Uint63.of_Z n) else nan
      | None => nan
      end
  end.

(** Number::toString on NaN, the infinities and integers below 10^21 in
    magnitude; other numbers only by their integral part. *)
Definition string_of_number (x : float) : string :=
  if is_nan x then "NaN"
  else if is_infinity x then (if (x <? 0)%float then "-Infinity" else "Infinity")
  else
    let n := float_trunc x in
    if n <? 0 then ("-" ++ pretty (- n))%string else pretty n.

#[export] Instance engine : Platform := {|
  StringToNumber := integer_of_string;
  NumberToString := string_of_number;
  Date_parse := parse_iso
|}.

End Engine.

(** ** Runs: what a computation returns and which effects it performs *)

Module Runs.
Import JS Effects.

Section WithEnv.
Context (E : env).

(** The world after a list of effects. *)
Definition run_events (evs : list event) (w : world) : world :=
  fold_left (fun w e => step E e w) evs w.

(** [m] returns [a] in every world, performing exactly the effects [evs]
    (and touching the world in no other way). *)
Definition performs {A} (m : M A) (a : A) (evs : list event) : Prop :=
  forall w, m w = (Normal a, run_events evs w).


(** The clock reading of the read endpoint's freshness check, taken after
    its two reads of the store. *)
Definition read_time (w : world) : Z :=
  clock (run_events [EvKvGet "blockchain_data"; EvKvGet "last_updated"] w).

End WithEnv.

(** A world to observe a computation in: empty store, clock at the epoch. *)
Definition w_init : world := {| kv := ∅; clock := 0; trace := [] |}.

(** The series a fetcher returns for an identifier, and the effects it
    performs, read off a run from [w_init]; [fetcher_performs] shows that they
    are the same in every world. *)
Definition series_of (fetcher : string -> M value) (id : string) : value :=
  match fst (fetcher id w_init) with
  | Normal v => v
  | Throw _ => VArr []
  end.

Definition events_of (fetcher : string -> M value) (id : string) : list event :=
  trace (snd (fetcher id w_init)).

(** The URLs fetched, and the store writes, among a list of effects. *)
Definition fetched (evs : list event) : list string :=
  flat_map (fun e => match e with EvFetch url => [url] | _ => [] end) evs.

Definition written (evs : list event) : list (string * value) :=
  flat_map (fun e => match e with EvKvSet k v => [(k, v)] | _ => [] end) evs.

Definition tvl_url (id : string) : string :=
  ("https://api.llama.fi/v2/historicalChainTvl/" ++ id)%string.

Definition price_url (id : string) : string :=
  (("https://api.coingecko.com/api/v3/coins/" ++ id ++ "/market_chart") ++ "?"
   ++ URLSearchParams [("vs_currency", "usd"); ("days", "90"); ("interval", "daily")])%string.

(** The two URLs of each chain, in the order of the mapping. *)
Definition refresh_urls (mapping : list (string * chain_ids)) : list string :=
  flat_map (fun e => [tvl_url (defillama (snd e)); price_url (coingecko (snd e))])
    mapping.

(** An upstream call that fails: the transport fails, the status is not
    200, or the body does not parse. *)
Definition upstream_fails (r : fetch_result) : bool :=
  match r with
  | FetchRejects => true
  | FetchResolves r => negb (status r =? 200) || negb (bool_decide (is_Some (body r)))
  end.

(** No key of [l] occurs twice. *)
Fixpoint keys_distinct {A} (l : list (string * A)) : bool :=
  match l with
  | [] => true
  | e :: rest => negb (existsb (String.eqb (fst e)) (map fst rest)) && keys_distinct rest
  end.

(** A value whose properties can be read: anything but [null] and
    [undefined]. *)
Definition readable (v : value) : bool :=
  match v with
  | VUndef | VNull => false
  | _ => true
  end.

(** The points the TVL fetcher makes of a record, when its date is a
    valid one: [t] is the time value of [item.date * 1000]. *)
Definition tvl_record `{Platform} (item : value) (t : Z) (v : value) : Prop :=
  exists d, get_field item "date" = Normal d
            /\ TimeClip (ToNumber d * 1000)%float = Some t
            /\ get_field item "tvl" = Normal v.

(** A [[timestamp, price]] pair whose timestamp is a valid date. *)
Definition price_record `{Platform} (item : value) (t : Z) (ts p : value) : Prop :=
  destructure_pair item = Normal (ts, p) /\ new_Date ts = Some t.

(** The effects of one round of the refresh loop, and the entries it adds,
    for fetchers that return [tv id], [pv id] and perform [te id], [pe id]. *)
Definition chain_events (te pe : string -> list event) (entry : string * chain_ids)
  : list event :=
  te (defillama (snd entry)) ++ [EvTimeout 1000]
  ++ pe (coingecko (snd entry)) ++ [EvTimeout 1000].

Definition tvl_entries (tv : string -> value) (mapping : list (string * chain_ids))
  : list (string * value) :=
  map (fun e => (fst e, tv (defillama (snd e)))) mapping.

Definition price_entries (pv : string -> value) (mapping : list (string * chain_ids))
  : list (string * value) :=
  map (fun e => (fst e, pv (coingecko (snd e)))) mapping.

(** [{tvl_data: ..., price_data: ...}] *)
Definition dataset_of (tvl price : list (string * value)) : value :=
  VObj [("tvl_data", VObj tvl); ("price_data", VObj price)].

(** The world a refresh leaves: after the loop's effects [evs] the clock is
    read, and the dataset and that timestamp are written to the store. *)
Definition refreshed (E : env) (dataset : value) (evs : list event) (w : world) : world :=
  let w1 := run_events E evs w in
  let lastUpdated := VStr (iso_string (clock w1)) in
  let sets := [EvKvSet "blockchain_data" dataset; EvKvSet "last_updated" lastUpdated] in
  {| kv := <["last_updated" := lastUpdated]> (<["blockchain_data" := jsonify dataset]> (kv w));
     clock := clock (run_events E sets w1);
     trace := trace w ++ evs ++ sets |}.

(** The dataset and the loop effects of a refresh in environment [E], by the
    refresh endpoint's fetchers over its mapping. *)
Definition refresh_dataset `{Platform} (E : env) : value :=
  dataset_of
    (tvl_entries (series_of (UpdateData.fetchTvlData E)) UpdateData.BLOCKCHAIN_MAPPING)
    (price_entries (series_of (UpdateData.fetchPriceData E)) UpdateData.BLOCKCHAIN_MAPPING).

Definition refresh_events `{Platform} (E : env) : list event :=
  flat_map (chain_events (events_of (UpdateData.fetchTvlData E))
                         (events_of (UpdateData.fetchPriceData E)))
    UpdateData.BLOCKCHAIN_MAPPING.

(** What [kv.get] finds under a key: [null] when nothing is stored. *)
Definition cached (w : world) (key : string) : value := default VNull (kv w !! key).

(** The read endpoint's freshness test in world [w]: both keys hold a truthy
    value and the timestamp is less than an hour (3600000 ms) old. *)
Definition fresh `{Platform} (E : env) (w : world) : bool :=
  truthy (cached w "blockchain_data") && truthy (cached w "last_updated")
  && elapsed_lt (Some (read_time E w)) (new_Date (cached w "last_updated")) 3600000.

(** The two reads of the store the read endpoint starts with. *)
Definition cache_reads : list event :=
  [EvKvGet "blockchain_data"; EvKvGet "last_updated"].

(** The entries of an object in the store's JSON form. *)
Definition stored_entries (entries : list (string * value)) : list (string * value) :=
  map (fun e => (fst e, jsonify (snd e))) entries.

(** The nine chain names, in the order of the mapping. *)
Definition chain_names : list string :=
  ["Aptos"; "Avalanche"; "Core DAO"; "Flow"; "Injective"; "Optimism"; "Polygon";
   "XRP/XRPL"; "Sei"].

(** The invariant of a Dataset produced in environment [E]: its two maps
    hold exactly the chain names, each bound to a sequence, and to the empty
    sequence when the chain's upstream call failed. *)
Definition dataset_invariant (E : env) (dataset : value) : Prop :=
  exists tvl price,
    dataset = dataset_of tvl price
    /\ map fst tvl = chain_names
    /\ map fst price = chain_names
    /\ forall name ids, In (name, ids) UpdateData.BLOCKCHAIN_MAPPING ->
         (exists pts, lookup_prop name tvl = Some (VArr pts))
         /\ (exists pts, lookup_prop name price = Some (VArr pts))
         /\ (upstream_fails (upstream E (tvl_url (defillama ids))) = true ->
             lookup_prop name tvl = Some (VArr []))
         /\ (upstream_fails (upstream E (price_url (coingecko ids))) = true ->
             lookup_prop name price = Some (VArr [])).

(** [item[key]] for an item whose properties can be read. *)
Definition prop_of (item : value) (key : string) : value :=
  match get_field item key with
  | Normal v => v
  | Throw _ => VUndef
  end.

(** The current value and the 30-day change of a series of values, as the
    card computes them: the last value against the one 30 places before it,
    or against the first one when the series is shorter. *)
Definition series_metrics `{Platform} (vals : list value) : value * float :=
  let n := Z.of_nat (length vals) in
  if 0 <? n then
    let current := default VUndef (vals !! Z.to_nat (n - 1)) in
    let monthAgo := default VUndef (vals !! Z.to_nat (BlockchainCard.monthAgoIndex n)) in
    (current, BlockchainCard.monthlyChange current monthAgo)
  else (VNum 0, BlockchainCard.monthlyChange (VNum 0) (VNum 0)).

End Runs.

(** ** A concrete environment and worlds to run the model in *)

Module Sample.
Import JS Effects Runs.

(** Upstream answers: Aptos answers both calls, Flow's TVL call fails in
    transport, Core DAO's TVL body is not JSON, Sei's TVL record has no date,
    and every other call is rate-limited (HTTP 429). *)
Definition answers (url : string) : fetch_result :=
  if String.eqb url (tvl_url "aptos") then
    FetchResolves
      {| status := 200;
         body := Some (VArr [VObj [("date", VNum 1704067200); ("tvl", VNum 100.5)];
                             VObj [("date", VNum 1704153600); ("tvl", VNum 101)]]) |}
  else if String.eqb url (price_url "aptos") then
    FetchResolves
      {| status := 200;
         body := Some (VObj [("prices", VArr [VArr [VNum 1704067200000; VNum 9.5];
                                              VArr [VNum 1704153600000; VNum 9.75]])]) |}
  else if String.eqb url (tvl_url "flow") then FetchRejects
  else if String.eqb url (tvl_url "core") then
    FetchResolves {| status := 200; body := None |}
  else if String.eqb url (tvl_url "sei") then
    FetchResolves {| status := 200; body := Some (VArr [VObj [("tvl", VNum 1)]]) |}
  else if String.eqb url (price_url "sei-network") then
    FetchResolves {| status := 200; body := Some (VObj [("status", VStr "ok")]) |}
  else FetchResolves {| status := 429; body := Some (VObj []) |}.

(** A timer takes its delay (none when negative), every other effect 7 ms. *)
Definition E : env :=
  {| upstream := answers;
     tick := fun t e => match e with EvTimeout ms => t + Z.max 0 ms | _ => t + 7 end |}.

(** 2024-03-31T00:00:00.000Z, with nothing cached. *)
Definition w_empty : world := {| kv := ∅; clock := 1711843200000; trace := [] |}.

Definition some_dataset : value :=
  dataset_of [("Aptos", VArr [])] [("Aptos", VArr [])].

(** The same instant, with a dataset cached half an hour earlier. *)
Definition w_fresh : world :=
  {| kv := <["last_updated" := VStr "2024-03-30T23:30:00.000Z"]>
             (<["blockchain_data" := some_dataset]> ∅);
     clock := 1711843200000; trace := [] |}.

(** The same instant, with a dataset cached two hours earlier. *)
Definition w_stale : world :=
  {| kv := <["last_updated" := VStr "2024-03-30T22:00:00.000Z"]>
             (<["blockchain_data" := some_dataset]> ∅);
     clock := 1711843200000; trace := [] |}.

(** Upstream answers, all HTTP 200, whose second record carries a date
    beyond the range of JavaScript dates: 10^13 s, respectively 10^16 ms, where
    the largest time value is 8.64 * 10^15 ms. *)
Definition two_tvl_records : list value :=
  [VObj [("date", VNum 1704067200); ("tvl", VNum 100.5)];
   VObj [("date", VNum 10000000000000); ("tvl", VNum 101)]].

Definition two_price_pairs : list value :=
  [VArr [VNum 1704067200000; VNum 9.5];
   VArr [VNum 10000000000000000; VNum 9.75]].

Definition far_future_answers (url : string) : fetch_result :=
  if String.eqb url (tvl_url "aptos") then
    FetchResolves {| status := 200; body := Some (VArr two_tvl_records) |}
  else
    FetchResolves {| status := 200;
                     body := Some (VObj [("prices", VArr two_price_pairs)]) |}.

Definition E_far_future : env :=
  {| upstream := far_future_answers;
     tick := fun t e => match e with EvTimeout ms => t + Z.max 0 ms | _ => t + 7 end |}.

Definition no_header : request := {| authorization := None |}.
Definition basic_header : request := {| authorization := Some "Basic dXNlcjpwdw==" |}.
Definition bearer_header : request := {| authorization := Some "Bearer anything" |}.

(** Ninety daily TVL points: 100 throughout, 120 at the 31st from the end
    (index 59) and 150 at the end (index 89). *)
Definition tvl_point_at (i : nat) : value :=
  VObj [("date", VStr "2024-01-01T00:00:00.000Z");
        ("tvl", VNum (if Nat.eqb i 59 then 120 else if Nat.eqb i 89 then 150 else 100))].

Definition ninety_points : list value := map tvl_point_at (seq 0 90).

(** Twelve price points, the first at 2 and the last at 3. *)
Definition price_point_at (i : nat) : value :=
  VObj [("date", VStr "2024-03-01T00:00:00.000Z");
        ("price", VNum (if Nat.eqb i 0 then 2 else if Nat.eqb i 11 then 3 else 2.5))].

Definition twelve_points : list value := map price_point_at (seq 0 12).

End Sample.

(** ** What the card shows, [components/BlockchainCard.js] *)

Module BlockchainCardView.
Import JS BlockchainCard.

(** One half of the card: the chart over the series with its two tiles, or
    the placeholder shown for an empty series. The fixed markup and styling
    are left out. *)
Inductive panel :=
| Chart (x : list (option Z)) (y : list value) (current change color : string)
| NoData (message : string).

(** The card: its title and its TVL and price halves. *)
Record card_view := { title : string; tvl_panel : panel; price_panel : panel }.

Section View.
Context `{Platform}.

(** [toLocaleString(undefined, {minimumFractionDigits: d,
    maximumFractionDigits: d})] on numbers, arrays and objects: the text
    depends on the locale of the runtime. *)
Context (toLocaleString : value -> Z -> string).

(** [v.toLocaleString(undefined, {...})] on any value: [null] and
    [undefined] have no methods, a string gives itself and a boolean its
    name, whatever the options. *)
Definition localeText (v : value) (fractionDigits : Z) : completion string :=
  match v with
  | VUndef | VNull => Throw TypeError
  | VStr s => Normal s
  | VBool b => Normal (if b then "true" else "false")
  | _ => Normal (toLocaleString v fractionDigits)
  end.

(** [change >= 0 ? 'green' : 'red'] *)
Definition changeColor (change : float) : string :=
  if (0 <=? change)%float then "green" else "red".

Definition BlockchainCard (name : string) (tvlData priceData : value)
  : completion card_view :=
  formattedTvl ← formattedTvlData tvlData;
  formattedPrice ← formattedPriceData priceData;
  m ← calculate tvlData priceData;
  tvlPanel ←
    (if 0 <? Z.of_nat (length formattedTvl) then
       current ← localeText (currentTvl m) 2;
       mret (Chart (map tvl_date formattedTvl) (map tvl formattedTvl)
               ("$" ++ current)%string (changeText (tvlMonthlyChange m))
               (changeColor (tvlMonthlyChange m)))
     else mret (NoData ("No TVL data available for " ++ name)%string));
  pricePanel ←
    (if 0 <? Z.of_nat (length formattedPrice) then
       current ← localeText (currentPrice m) 4;
       mret (Chart (map price_date formattedPrice) (map price formattedPrice)
               ("$" ++ current)%string (changeText (priceMonthlyChange m))
               (changeColor (priceMonthlyChange m)))
     else mret (NoData ("No price data available for " ++ name)%string));
  mret {| title := name; tvl_panel := tvlPanel; price_panel := pricePanel |}.

End View.
End BlockchainCardView.

(** ** The dashboard page, [pages/index] *)

Module Dashboard.
Import JS Effects BlockchainCardView.

(** Dictionary mapping blockchain names to their identifiers in DeFiLlama
    and CoinGecko: the page's own copy. *)
Definition BLOCKCHAIN_MAPPING : list (string * chain_ids) :=
  [ ("Aptos", {| defillama := "aptos"; coingecko := "aptos" |});
    ("Avalanche", {| defillama := "Avalanche"; coingecko := "avalanche-2" |});
    ("Core DAO", {| defillama := "core"; coingecko := "coredaoorg" |});
    ("Flow", {| defillama := "flow"; coingecko := "flow" |});
    ("Injective", {| defillama := "injective"; coingecko := "injective-protocol" |});
    ("Optimism", {| defillama := "optimism"; coingecko := "optimism" |});
    ("Polygon", {| defillama := "polygon"; coingecko := "matic-network" |});
    ("XRP/XRPL", {| defillama := "XRPL"; coingecko := "ripple" |});
    ("Sei", {| defillama := "sei"; coingecko := "sei-network" |}) ].

(** The component's state: [lastUpdated] is [null] ([None]) or a Date. *)
Record page_state := {
  data : value;
  lastUpdated : option (option Z);
  loading : bool;
  refreshing : bool
}.

(** [useState({})], [useState(null)], [useState(true)], [useState(false)] *)
Definition initial : page_state :=
  {| data := VObj []; lastUpdated := None; loading := true; refreshing := false |}.

(** What the page shows: the loading screen, or the header (the date, the
    button's label and whether it is disabled) above the cards. *)
Inductive page_view :=
| Loading
| Page (updated : option (option Z)) (button : string) (disabled : bool)
       (cards : list card_view).

Section Page.
Context `{Platform}.
Context (toLocaleString : value -> Z -> string).

(** [fetchData], given what [fetch('/api/blockchain-data')] answers: the
    state it leaves and what it logs. The status of the answer is not looked
    at. ([data] and [lastUpdated] are read like the properties [get_field]
    is made for.) *)
Definition fetchData (answer : fetch_result) (s : page_state) : page_state * list event :=
  let attempt : completion page_state :=
    response ← match answer with
               | FetchRejects => Throw TypeError
               | FetchResolves r => Normal r
               end;
    result ← match body response with
             | Some v => Normal v
             | None => Throw SyntaxError
             end;
    d ← get_field result "data";
    updated ← get_field result "lastUpdated";
    mret {| data := d; lastUpdated := Some (new_Date updated);
            loading := false; refreshing := false |} in
  match attempt with
  | Normal s' => (s', [])
  | Throw error =>
      ({| data := data s; lastUpdated := lastUpdated s;
          loading := false; refreshing := false |},
       [EvConsoleError "Error fetching data:" (Some error)])
  end.

(** [handleRefresh]: [setRefreshing(true); fetchData()] *)
Definition handleRefresh (answer : fetch_result) (s : page_state)
  : page_state * list event :=
  fetchData answer
    {| data := data s; lastUpdated := lastUpdated s; loading := loading s;
       refreshing := true |}.

(** [series?.[blockchain] || []] *)
Definition seriesFor (series : value) (blockchain : string) : value :=
  let found :=
    match series with
    | VUndef | VNull => VUndef
    | VObj props => default VUndef (lookup_prop blockchain props)
    | _ => VUndef
    end in
  if truthy found then found else VArr [].

(** The component's render. *)
Definition render (s : page_state) : completion page_view :=
  if loading s then Normal Loading
  else
    cards ← mapM (fun blockchain =>
               tvl_data ← get_field (data s) "tvl_data";
               price_data ← get_field (data s) "price_data";
               BlockchainCard toLocaleString blockchain
                 (seriesFor tvl_data blockchain) (seriesFor price_data blockchain))
             (map fst BLOCKCHAIN_MAPPING);
    mret (Page (lastUpdated s)
            (if refreshing s then "Refreshing..." else "Refresh Data Now")
            (refreshing s) cards).

End Page.

(** What a browser receives of a handler's response: its status and its
    body in JSON form. *)
Definition delivered (resp : http_response) : fetch_result :=
  FetchResolves {| status := res_status resp; body := Some (jsonify (res_body resp)) |}.

End Dashboard.

(** ** More observations on effects *)

Module Traces.
Import JS Effects.

(** The keys read from the store among a list of effects. *)
Definition reads (evs : list event) : list string :=
  flat_map (fun e => match e with EvKvGet k => [k] | _ => [] end) evs.

(** The upstream calls and timers among a list of effects, in order. *)
Definition paced (evs : list event) : list event :=
  flat_map (fun e => match e with EvFetch _ | EvTimeout _ => [e] | _ => [] end) evs.

(** A point of the TVL series: [{date: <string>, tvl: ...}]. *)
Definition is_tvl_point (v : value) : Prop :=
  exists date tvl, v = VObj [("date", VStr date); ("tvl", tvl)].

(** A point of the price series: [{date: <string>, timestamp: ..., price: ...}]. *)
Definition is_price_point (v : value) : Prop :=
  exists date timestamp price,
    v = VObj [("date", VStr date); ("timestamp", timestamp); ("price", price)].

End Traces.

(** * Properties *)

Import JS Effects Runs.

(** ** Runs of effects *)

Section RunFacts.
Context (E : env).

Lemma run_events_app evs1 evs2 w :
  run_events E (evs1 ++ evs2) w = run_events E evs2 (run_events E evs1 w).
Proof. apply fold_left_app. Qed.

Lemma kv_run_events evs w : kv (run_events E evs w) = kv w.
Proof. revert w. induction evs as [|e evs IH]; intros w; [done|]. simpl. by rewrite IH. Qed.

Lemma trace_run_events evs w : trace (run_events E evs w) = trace w ++ evs.
Proof.
  revert w. induction evs as [|e evs IH]; intros w; simpl.
  - by rewrite app_nil_r.
  - rewrite IH. simpl. by rewrite <- app_assoc.
Qed.


Lemma performs_ret {A} (a : A) : performs E (mret a) a [].
Proof. by intros w. Qed.

Lemma performs_bind {A B} (m : M A) (f : A -> M B) a b evs1 evs2 :
  performs E m a evs1 -> performs E (f a) b evs2 ->
  performs E (m ≫= f) b (evs1 ++ evs2).
Proof.
  intros Hm Hf w. unfold mbind, M_bind. rewrite Hm, Hf. by rewrite run_events_app.
Qed.

Lemma performs_emit e : performs E (emit E e) tt [e].
Proof. by intros w. Qed.

Lemma performs_events {A} (m : M A) a evs evs' :
  performs E m a evs -> evs = evs' -> performs E m a evs'.
Proof. by intros ? <-. Qed.

(** A loop whose bodies agree runs the same. *)
Lemma for_of_ext {A S} (l : list A) (body1 body2 : A -> S -> M S) :
  (forall x s w, body1 x s w = body2 x s w) ->
  forall s w, for_of l body1 s w = for_of l body2 s w.
Proof.
  intros Hbody. induction l as [|x l IH]; intros s w; simpl; [done|].
  unfold mbind, M_bind. rewrite Hbody.
  destruct (body2 x s w) as [[s'|e] w']; [apply IH|done].
Qed.

End RunFacts.

(** ** Objects as property lists *)

Lemma lookup_prop_app key ps qs :
  lookup_prop key (ps ++ qs) =
  match lookup_prop key ps with Some v => Some v | None => lookup_prop key qs end.
Proof.
  induction ps as [|[k v] ps IH]; simpl; [done|]. by destruct (String.eqb k key).
Qed.

Lemma set_prop_fresh key v ps :
  lookup_prop key ps = None -> set_prop key v ps = ps ++ [(key, v)].
Proof.
  induction ps as [|[k old] ps IH]; simpl; [done|].
  destruct (String.eqb k key); [done|]. intros Hnone. by rewrite IH.
Qed.

Lemma existsb_eqb_false key (keys : list string) :
  existsb (String.eqb key) keys = false -> forall k, In k keys -> String.eqb key k = false.
Proof.
  intros Hex k Hin. destruct (String.eqb key k) eqn:Heq; [|done].
  assert (existsb (String.eqb key) keys = true) as Htrue.
  { apply existsb_exists. by exists k. }
  congruence.
Qed.

(** ** The fetchers *)

Section FetcherFacts.
Context `{Platform} (E : env).

(** The two endpoints carry the same fetchers. *)
Lemma fetchTvlData_same : BlockchainData.fetchTvlData E = UpdateData.fetchTvlData E.
Proof. reflexivity. Qed.

Lemma fetchPriceData_same : BlockchainData.fetchPriceData E = UpdateData.fetchPriceData E.
Proof. reflexivity. Qed.

Lemma mapping_same : BlockchainData.BLOCKCHAIN_MAPPING = UpdateData.BLOCKCHAIN_MAPPING.
Proof. reflexivity. Qed.

(** A fetcher returns the same series and performs the same effects in
    every world: its try/catch lets no exception through. *)
Lemma fetchTvlData_performs id :
  performs E (UpdateData.fetchTvlData E id)
    (series_of (UpdateData.fetchTvlData E) id) (events_of (UpdateData.fetchTvlData E) id).
Proof.
  intros w. unfold series_of, events_of, UpdateData.fetchTvlData, try_catch, fetch.
  unfold mbind, M_bind, json, lift, console_error, emit.
  destruct (upstream E _) as [|[st [data|]]]; simpl; [done| |].
  - destruct (st =? 200); simpl; [|done].
    destruct (Array_map _ data); simpl; done.
  - destruct (st =? 200); simpl; done.
Qed.

Lemma fetchPriceData_performs id :
  performs E (UpdateData.fetchPriceData E id)
    (series_of (UpdateData.fetchPriceData E) id)
    (events_of (UpdateData.fetchPriceData E) id).
Proof.
  intros w. unfold series_of, events_of, UpdateData.fetchPriceData, try_catch, fetch.
  unfold mbind, M_bind, json, lift, console_error, emit.
  destruct (upstream E _) as [|[st [data|]]]; simpl; [done| |].
  - destruct (st =? 200); simpl; [|done].
    destruct (get_field data "prices") as [p|]; simpl; [|done].
    destruct (Array_map _ _); simpl; done.
  - destruct (st =? 200); simpl; done.
Qed.

End FetcherFacts.

(** ** The refresh routine *)

(** Unfold the monad's operations and the primitive effects. *)
Ltac run_M :=
  unfold mbind, M_bind, mret, M_ret, lift, Date_now, kv_set, kv_get, emit,
    setTimeout, console_error;
  simpl.

Lemma world_eq (a b : world) :
  kv a = kv b -> clock a = clock b -> trace a = trace b -> a = b.
Proof. destruct a, b; simpl; by intros -> -> ->. Qed.

Section AggregatorFacts.
Context (E : env) (tvlF priceF : string -> M value).
Context (tv pv : string -> value) (te pe : string -> list event).
Hypothesis Htvl : forall id, performs E (tvlF id) (tv id) (te id).
Hypothesis Hprice : forall id, performs E (priceF id) (pv id) (pe id).

(** The loop, started with some entries already there: every chain of the
    mapping adds one entry to each object, in order. *)
Lemma collect_from (l : list (string * chain_ids)) :
  forall t0 p0,
    keys_distinct l = true ->
    (forall e, In e l -> lookup_prop (fst e) t0 = None /\ lookup_prop (fst e) p0 = None) ->
    performs E (for_of l (Aggregator.round E tvlF priceF) (t0, p0))
      (t0 ++ tvl_entries tv l, p0 ++ price_entries pv l)
      (flat_map (chain_events te pe) l).
Proof.
  induction l as [|[name ids] l IH]; intros t0 p0 Hdistinct Hfresh.
  - simpl. rewrite !app_nil_r. apply performs_ret.
  - simpl in Hdistinct. apply andb_true_iff in Hdistinct as [Hname Hdistinct].
    apply negb_true_iff in Hname.
    destruct (Hfresh (name, ids)) as [Ht Hp]; [by left|]. simpl in Ht, Hp.
    cbn [for_of flat_map tvl_entries price_entries map fst snd].
    eapply performs_bind.
    + eapply performs_events.
      * unfold Aggregator.round. eapply performs_bind; [apply Htvl|].
        eapply performs_bind; [apply performs_emit|].
        eapply performs_bind; [apply Hprice|].
        eapply performs_bind; [apply performs_emit|]. apply performs_ret.
      * unfold chain_events. simpl. by rewrite ?app_nil_r.
    + simpl. rewrite (set_prop_fresh _ _ _ Ht), (set_prop_fresh _ _ _ Hp).
      eapply performs_events; [|reflexivity].
      specialize (IH (t0 ++ [(name, tv (defillama ids))])
                     (p0 ++ [(name, pv (coingecko ids))]) Hdistinct).
      rewrite <- !app_assoc in IH. apply IH.
      intros e Hin. rewrite !lookup_prop_app.
      destruct (Hfresh e) as [-> ->]; [by right|]. simpl.
      rewrite (existsb_eqb_false _ _ Hname (fst e)); [done|]. by apply in_map.
Qed.

Lemma collect_performs (mapping : list (string * chain_ids)) :
  keys_distinct mapping = true ->
  performs E (Aggregator.collect E tvlF priceF mapping)
    (tvl_entries tv mapping, price_entries pv mapping)
    (flat_map (chain_events te pe) mapping).
Proof.
  intros Hdistinct. apply (collect_from mapping [] [] Hdistinct). by intros.
Qed.

(** The refresh routine of the specification, run in any world. *)
Lemma aggregate_run (mapping : list (string * chain_ids)) w :
  keys_distinct mapping = true ->
  let dataset := dataset_of (tvl_entries tv mapping) (price_entries pv mapping) in
  let evs := flat_map (chain_events te pe) mapping in
  Aggregator.aggregate E tvlF priceF mapping w =
  (Normal (dataset, iso_string (clock (run_events E evs w))), refreshed E dataset evs w).
Proof.
  intros Hdistinct dataset evs. unfold Aggregator.aggregate, mbind at 1, M_bind at 1.
  rewrite (collect_performs mapping Hdistinct). run_M.
  f_equal. apply world_eq; simpl.
  - by rewrite kv_run_events.
  - done.
  - by rewrite trace_run_events, <- !app_assoc.
Qed.

End AggregatorFacts.

(** ** The two handlers against the refresh routine *)

(** Rewrite a handler's inline loop body into the specification's round. *)
Ltac inline_loop_is_round E tvlF priceF :=
  match goal with
  | |- context [for_of ?l ?body _ _] =>
      lazymatch body with
      | Aggregator.round _ _ _ => fail
      | _ => rewrite (for_of_ext l body (Aggregator.round E tvlF priceF))
      end
  end.

Section HandlerFacts.
Context `{Platform} (E : env).

(** The refresh endpoint, once authorized, is the specification's routine
    followed by its own response. *)
Lemma update_handler_refines req w :
  UpdateData.unauthorized (authorization req) = false ->
  UpdateData.handler E req w =
  (r ← Aggregator.aggregate E (UpdateData.fetchTvlData E) (UpdateData.fetchPriceData E)
         UpdateData.BLOCKCHAIN_MAPPING;
   mret {| res_status := 200;
           res_body := VObj [("success", VBool true); ("lastUpdated", VStr (snd r))] |}) w.
Proof.
  intros Hauth. unfold UpdateData.handler, Aggregator.aggregate, Aggregator.collect.
  rewrite Hauth. unfold mbind, M_bind.
  inline_loop_is_round E (UpdateData.fetchTvlData E) (UpdateData.fetchPriceData E).
  - destruct (for_of _ _ _ w) as [[[tvl price]|e] w1]; [|reflexivity]. reflexivity.
  - by intros [name ids] [tvl price] w0.
Qed.

(** The read endpoint's refresh part is the same routine followed by the
    reader's response. *)
Lemma read_refresh_refines w :
  BlockchainData.refresh E w =
  (r ← Aggregator.aggregate E (BlockchainData.fetchTvlData E)
         (BlockchainData.fetchPriceData E) BlockchainData.BLOCKCHAIN_MAPPING;
   mret {| res_status := 200;
           res_body := VObj [("data", fst r); ("lastUpdated", VStr (snd r))] |}) w.
Proof.
  unfold BlockchainData.refresh, Aggregator.aggregate, Aggregator.collect.
  unfold mbind, M_bind.
  inline_loop_is_round E (BlockchainData.fetchTvlData E) (BlockchainData.fetchPriceData E).
  - destruct (for_of _ _ _ w) as [[[tvl price]|e] w1]; [|reflexivity]. reflexivity.
  - by intros [name ids] [tvl price] w0.
Qed.

Lemma mapping_keys_distinct : keys_distinct UpdateData.BLOCKCHAIN_MAPPING = true.
Proof. reflexivity. Qed.

(** What an authorized refresh does, in closed form. *)
Lemma update_handler_run req w :
  UpdateData.unauthorized (authorization req) = false ->
  UpdateData.handler E req w =
  (Normal {| res_status := 200;
             res_body :=
               VObj [("success", VBool true);
                     ("lastUpdated",
                      VStr (iso_string (clock (run_events E (refresh_events E) w))))] |},
   refreshed E (refresh_dataset E) (refresh_events E) w).
Proof.
  intros Hauth. rewrite (update_handler_refines req w Hauth).
  unfold mbind at 1, M_bind at 1.
  by rewrite (aggregate_run E _ _ _ _ _ _ (fetchTvlData_performs E)
                (fetchPriceData_performs E) _ w mapping_keys_distinct).
Qed.

(** What the read endpoint's refresh part does, in closed form. *)
Lemma read_refresh_run w :
  BlockchainData.refresh E w =
  (Normal {| res_status := 200;
             res_body :=
               VObj [("data", refresh_dataset E);
                     ("lastUpdated",
                      VStr (iso_string (clock (run_events E (refresh_events E) w))))] |},
   refreshed E (refresh_dataset E) (refresh_events E) w).
Proof.
  rewrite (read_refresh_refines w). unfold mbind at 1, M_bind at 1.
  by rewrite (aggregate_run E _ _ _ _ _ _ (fetchTvlData_performs E)
                (fetchPriceData_performs E) _ w mapping_keys_distinct).
Qed.

End HandlerFacts.

(** ** What the fetchers return and perform *)

Section SeriesFacts.
Context `{Platform} (E : env).

(** Unfold a fetcher down to the case analysis on the upstream answer. *)
Ltac open_fetcher :=
  unfold series_of, events_of, UpdateData.fetchTvlData, UpdateData.fetchPriceData,
    try_catch, fetch;
  unfold mbind, M_bind, json, lift, console_error, emit.

Lemma tvl_series_is_array id :
  exists pts, series_of (UpdateData.fetchTvlData E) id = VArr pts.
Proof.
  open_fetcher.
  destruct (upstream E _) as [|[st [data|]]]; simpl; [by eexists| |].
  - destruct (st =? 200); simpl; [|by eexists].
    destruct (Array_map _ data); simpl; by eexists.
  - destruct (st =? 200); simpl; by eexists.
Qed.

Lemma price_series_is_array id :
  exists pts, series_of (UpdateData.fetchPriceData E) id = VArr pts.
Proof.
  open_fetcher.
  destruct (upstream E _) as [|[st [data|]]]; simpl; [by eexists| |].
  - destruct (st =? 200); simpl; [|by eexists].
    destruct (get_field data "prices") as [p|]; simpl; [|by eexists].
    destruct (Array_map _ _); simpl; by eexists.
  - destruct (st =? 200); simpl; by eexists.
Qed.

(** A failed upstream call leaves the empty series. *)
Lemma tvl_series_on_failure id :
  upstream_fails (upstream E (tvl_url id)) = true ->
  series_of (UpdateData.fetchTvlData E) id = VArr [].
Proof.
  unfold tvl_url. open_fetcher.
  destruct (upstream E _) as [|[st [data|]]]; simpl; [done| |].
  - destruct (st =? 200); simpl; [|done]. discriminate.
  - destruct (st =? 200); simpl; done.
Qed.

Lemma price_series_on_failure id :
  upstream_fails (upstream E (price_url id)) = true ->
  series_of (UpdateData.fetchPriceData E) id = VArr [].
Proof.
  unfold price_url. open_fetcher.
  destruct (upstream E _) as [|[st [data|]]]; simpl; [done| |].
  - destruct (st =? 200); simpl; [|done]. discriminate.
  - destruct (st =? 200); simpl; done.
Qed.

(** A fetcher performs one fetch, of its own URL, and writes nothing. *)
Lemma tvl_events_fetched id :
  fetched (events_of (UpdateData.fetchTvlData E) id) = [tvl_url id]
  /\ written (events_of (UpdateData.fetchTvlData E) id) = [].
Proof.
  unfold tvl_url. open_fetcher.
  destruct (upstream E _) as [|[st [data|]]]; simpl; [done| |].
  - destruct (st =? 200); simpl; [|done].
    destruct (Array_map _ data); simpl; done.
  - destruct (st =? 200); simpl; done.
Qed.

Lemma price_events_fetched id :
  fetched (events_of (UpdateData.fetchPriceData E) id) = [price_url id]
  /\ written (events_of (UpdateData.fetchPriceData E) id) = [].
Proof.
  unfold price_url. open_fetcher.
  destruct (upstream E _) as [|[st [data|]]]; simpl; [done| |].
  - destruct (st =? 200); simpl; [|done].
    destruct (get_field data "prices") as [p|]; simpl; [|done].
    destruct (Array_map _ _); simpl; done.
  - destruct (st =? 200); simpl; done.
Qed.

End SeriesFacts.

(** ** The dataset of a refresh *)

Lemma tvl_entries_keys tv (l : list (string * chain_ids)) :
  map fst (tvl_entries tv l) = map fst l.
Proof. unfold tvl_entries. rewrite map_map. by apply map_ext. Qed.

Lemma price_entries_keys pv (l : list (string * chain_ids)) :
  map fst (price_entries pv l) = map fst l.
Proof. unfold price_entries. rewrite map_map. by apply map_ext. Qed.

Lemma stored_entries_keys entries : map fst (stored_entries entries) = map fst entries.
Proof. unfold stored_entries. rewrite map_map. by apply map_ext. Qed.

(** Each chain of a mapping with distinct names finds its own entry. *)
Lemma lookup_entries {A} (f : chain_ids -> A) (g : A -> value)
    (l : list (string * chain_ids)) name ids :
  keys_distinct l = true -> In (name, ids) l ->
  lookup_prop name (map (fun e => (fst e, g (f (snd e)))) l) = Some (g (f ids)).
Proof.
  induction l as [|[k i] l IH]; intros Hdistinct Hin; [done|].
  simpl in Hdistinct. apply andb_true_iff in Hdistinct as [Hk Hdistinct].
  apply negb_true_iff in Hk. simpl. destruct Hin as [[= -> ->]|Hin].
  - by rewrite String.eqb_refl.
  - rewrite (existsb_eqb_false _ _ Hk name); [by apply IH|].
    by apply (in_map fst l (name, ids)).
Qed.

Lemma lookup_tvl_entries tv l name ids :
  keys_distinct l = true -> In (name, ids) l ->
  lookup_prop name (tvl_entries tv l) = Some (tv (defillama ids)).
Proof. apply (lookup_entries defillama tv). Qed.

Lemma lookup_price_entries pv l name ids :
  keys_distinct l = true -> In (name, ids) l ->
  lookup_prop name (price_entries pv l) = Some (pv (coingecko ids)).
Proof. apply (lookup_entries coingecko pv). Qed.

(** The store keeps every property whose value is defined. *)
Lemma jsonify_object entries :
  Forall (fun e => snd e <> VUndef) entries ->
  jsonify (VObj entries) = VObj (stored_entries entries).
Proof.
  intros Hdefined. simpl. f_equal. induction Hdefined as [|[k v] l Hv _ IH]; [done|].
  simpl in *. rewrite IH. by destruct v.
Qed.

Lemma lookup_stored_entries name entries :
  lookup_prop name (stored_entries entries) = jsonify <$> lookup_prop name entries.
Proof.
  induction entries as [|[k v] l IH]; [done|]. simpl. by destruct (String.eqb k name).
Qed.

Lemma jsonify_dataset tvl price :
  Forall (fun e => snd e <> VUndef) tvl -> Forall (fun e => snd e <> VUndef) price ->
  jsonify (dataset_of tvl price) = dataset_of (stored_entries tvl) (stored_entries price).
Proof.
  intros Htvl Hprice. unfold dataset_of.
  rewrite jsonify_object by (repeat constructor; done).
  unfold stored_entries at 1. cbn [map fst snd].
  by rewrite (jsonify_object tvl Htvl), (jsonify_object price Hprice).
Qed.

Lemma fetched_app evs1 evs2 : fetched (evs1 ++ evs2) = fetched evs1 ++ fetched evs2.
Proof. apply flat_map_app. Qed.

Lemma written_app evs1 evs2 : written (evs1 ++ evs2) = written evs1 ++ written evs2.
Proof. apply flat_map_app. Qed.

Section DatasetFacts.
Context `{Platform} (E : env).

Lemma refresh_entries_defined :
  Forall (fun e => snd e <> VUndef)
    (tvl_entries (series_of (UpdateData.fetchTvlData E)) UpdateData.BLOCKCHAIN_MAPPING)
  /\ Forall (fun e => snd e <> VUndef)
       (price_entries (series_of (UpdateData.fetchPriceData E)) UpdateData.BLOCKCHAIN_MAPPING).
Proof.
  split; apply List.Forall_forall; intros e Hin; apply in_map_iff in Hin as ([name ids] & <- & _);
    simpl.
  - by destruct (tvl_series_is_array E (defillama ids)) as [pts ->].
  - by destruct (price_series_is_array E (coingecko ids)) as [pts ->].
Qed.

(** The loop of a refresh fetches the two URLs of every chain, in the order
    of the mapping, and writes nothing to the store. *)
Lemma refresh_events_fetched :
  fetched (refresh_events E) = refresh_urls UpdateData.BLOCKCHAIN_MAPPING
  /\ written (refresh_events E) = [].
Proof.
  unfold refresh_events, refresh_urls.
  induction UpdateData.BLOCKCHAIN_MAPPING as [|[name ids] l [IHf IHw]]; [done|].
  simpl. unfold chain_events at 1 3. simpl.
  rewrite !fetched_app, !written_app. simpl. rewrite !fetched_app, !written_app.
  destruct (tvl_events_fetched E (defillama ids)) as [-> ->].
  destruct (price_events_fetched E (coingecko ids)) as [-> ->].
  simpl. by rewrite IHf, IHw.
Qed.

End DatasetFacts.

(** ** The read endpoint's two paths *)

(** Settle a test of the goal by a hypothesis that gives its value. *)
Ltac decide_test Htest :=
  match goal with
  | |- context [if ?c then _ else _] =>
      match type of Htest with
      | _ = ?b => progress (replace c with b by (symmetry; exact Htest))
      end
  end.

Section ReadFacts.
Context `{Platform} (E : env).

Lemma read_handler_fresh req w :
  fresh E w = true ->
  BlockchainData.handler E req w =
  (Normal {| res_status := 200;
             res_body := VObj [("data", cached w "blockchain_data");
                               ("lastUpdated", cached w "last_updated")] |},
   run_events E cache_reads w).
Proof.
  intros Hfresh. unfold fresh in Hfresh.
  apply andb_true_iff in Hfresh as [Htruthy Helapsed].
  unfold BlockchainData.handler. unfold mbind, M_bind, kv_get, Date_now, mret, M_ret.
  cbn -[elapsed_lt new_Date truthy BlockchainData.refresh].
  decide_test Htruthy. cbn -[elapsed_lt new_Date truthy BlockchainData.refresh].
  decide_test Helapsed. reflexivity.
Qed.

Lemma read_handler_stale req w :
  fresh E w = false ->
  BlockchainData.handler E req w = BlockchainData.refresh E (run_events E cache_reads w).
Proof.
  intros Hfresh. unfold fresh in Hfresh.
  unfold BlockchainData.handler. unfold mbind, M_bind, kv_get, Date_now, mret, M_ret.
  cbn -[elapsed_lt new_Date truthy BlockchainData.refresh].
  destruct (truthy (cached w "blockchain_data") && truthy (cached w "last_updated"))
    eqn:Htruthy.
  - decide_test Htruthy. cbn -[elapsed_lt new_Date truthy BlockchainData.refresh].
    simpl in Hfresh. decide_test Hfresh. reflexivity.
  - decide_test Htruthy. reflexivity.
Qed.

(** A miss, in closed form. *)
Lemma read_handler_miss_run req w :
  fresh E w = false ->
  let w1 := run_events E cache_reads w in
  BlockchainData.handler E req w =
  (Normal {| res_status := 200;
             res_body :=
               VObj [("data", refresh_dataset E);
                     ("lastUpdated",
                      VStr (iso_string (clock (run_events E (refresh_events E) w1))))] |},
   refreshed E (refresh_dataset E) (refresh_events E) w1).
Proof. intros Hfresh w1. rewrite (read_handler_stale req w Hfresh). apply read_refresh_run. Qed.

End ReadFacts.

(** ** The Dataset invariant *)

Section InvariantFacts.
Context `{Platform} (E : env).

Lemma refresh_dataset_invariant : dataset_invariant E (refresh_dataset E).
Proof.
  exists (tvl_entries (series_of (UpdateData.fetchTvlData E)) UpdateData.BLOCKCHAIN_MAPPING),
    (price_entries (series_of (UpdateData.fetchPriceData E)) UpdateData.BLOCKCHAIN_MAPPING).
  split; [done|]. split; [by rewrite tvl_entries_keys|].
  split; [by rewrite price_entries_keys|].
  intros name ids Hin.
  rewrite (lookup_tvl_entries _ _ name ids mapping_keys_distinct Hin).
  rewrite (lookup_price_entries _ _ name ids mapping_keys_distinct Hin).
  repeat split.
  - destruct (tvl_series_is_array E (defillama ids)) as [pts ->]. by exists pts.
  - destruct (price_series_is_array E (coingecko ids)) as [pts ->]. by exists pts.
  - intros Hfails. by rewrite (tvl_series_on_failure E _ Hfails).
  - intros Hfails. by rewrite (price_series_on_failure E _ Hfails).
Qed.

(** The JSON form the store keeps satisfies the invariant as well. *)
Lemma stored_dataset_invariant : dataset_invariant E (jsonify (refresh_dataset E)).
Proof.
  destruct (refresh_entries_defined E) as [Htvl Hprice].
  unfold refresh_dataset. rewrite (jsonify_dataset _ _ Htvl Hprice).
  eexists _, _. split; [reflexivity|].
  rewrite !stored_entries_keys, tvl_entries_keys, price_entries_keys.
  split; [done|]. split; [done|]. intros name ids Hin.
  rewrite !lookup_stored_entries.
  rewrite (lookup_tvl_entries _ _ name ids mapping_keys_distinct Hin).
  rewrite (lookup_price_entries _ _ name ids mapping_keys_distinct Hin).
  repeat split.
  - destruct (tvl_series_is_array E (defillama ids)) as [pts ->]. by eexists.
  - destruct (price_series_is_array E (coingecko ids)) as [pts ->]. by eexists.
  - intros Hfails. by rewrite (tvl_series_on_failure E _ Hfails).
  - intros Hfails. by rewrite (price_series_on_failure E _ Hfails).
Qed.

End InvariantFacts.

(** ** The claims *)

Lemma refresh_dataset_eq `{Platform} (E : env) :
  refresh_dataset E =
  dataset_of
    (tvl_entries (series_of (UpdateData.fetchTvlData E)) UpdateData.BLOCKCHAIN_MAPPING)
    (price_entries (series_of (UpdateData.fetchPriceData E)) UpdateData.BLOCKCHAIN_MAPPING).
Proof. reflexivity. Qed.

(** From here on a refresh is used through the lemmas above only. *)
#[local] Opaque refresh_dataset refresh_events run_events.

(** C1. Every run of the refresh routine, in the refresh endpoint (once
    authorized) and in the read endpoint (once the cache is not fresh), ends
    normally whatever the upstream calls answer, and the Dataset it produces,
    returns (read endpoint) and stores satisfies the invariant: [tvl_data] and
    [price_data] hold exactly the nine chain names of BLOCKCHAIN_MAPPING, each
    bound to a sequence, the empty one for a chain whose fetch failed. *)
Theorem refresh_keeps_every_chain `{Platform} (E : env) :
  (forall req w,
     UpdateData.unauthorized (authorization req) = false ->
     exists resp stored,
       fst (UpdateData.handler E req w) = Normal resp
       /\ kv (snd (UpdateData.handler E req w)) !! "blockchain_data" = Some stored
       /\ dataset_invariant E stored)
  /\ (forall req w,
        fresh E w = false ->
        exists newData lastUpdated stored,
          fst (BlockchainData.handler E req w) =
            Normal {| res_status := 200;
                      res_body := VObj [("data", newData); ("lastUpdated", lastUpdated)] |}
          /\ dataset_invariant E newData
          /\ kv (snd (BlockchainData.handler E req w)) !! "blockchain_data" = Some stored
          /\ dataset_invariant E stored).
Proof.
  split.
  - intros req w Hauth. rewrite (update_handler_run E req w Hauth). simpl.
    eexists _, _. split; [done|]. split.
    + rewrite lookup_insert_ne by done. apply lookup_insert_eq.
    + apply stored_dataset_invariant.
  - intros req w Hmiss. rewrite (read_handler_miss_run E req w Hmiss). simpl.
    eexists _, _, _. split; [done|]. split; [apply refresh_dataset_invariant|]. split.
    + rewrite lookup_insert_ne by done. apply lookup_insert_eq.
    + apply stored_dataset_invariant.
Qed.

(** C2. When the store holds a dataset and a timestamp (both truthy) and the
    read happens strictly less than one hour (3600000 ms) after that timestamp,
    the read endpoint answers 200 with the stored dataset and timestamp
    unchanged; besides its two reads of the store it performs no effect: no
    upstream fetch, no write, and the store is as it was. *)
Theorem fresh_read_serves_cache `{Platform} (E : env) (req : request) (w : world)
    (cachedData lastUpdated : value) (t0 : Z) :
  kv w !! "blockchain_data" = Some cachedData ->
  truthy cachedData = true ->
  kv w !! "last_updated" = Some lastUpdated ->
  truthy lastUpdated = true ->
  new_Date lastUpdated = Some t0 ->
  read_time E w - t0 < 3600000 ->
  exists w',
    BlockchainData.handler E req w =
      (Normal {| res_status := 200;
                 res_body := VObj [("data", cachedData); ("lastUpdated", lastUpdated)] |},
       w')
    /\ kv w' = kv w
    /\ exists evs, trace w' = trace w ++ evs /\ fetched evs = [] /\ written evs = [].
Proof.
  intros Hdata Htd Hlast Htl Hdate Hlt.
  assert (fresh E w = true) as Hfresh.
  { unfold fresh, cached. rewrite Hdata, Hlast. simpl default.
    rewrite Htd, Htl, Hdate. simpl. by apply Z.ltb_lt. }
  rewrite (read_handler_fresh E req w Hfresh). unfold cached. rewrite Hdata, Hlast.
  eexists. split; [done|]. split; [apply kv_run_events|].
  exists cache_reads. by rewrite trace_run_events.
Qed.


(** C4. A refresh request without an Authorization header, or with one that
    does not start with "Bearer ", is answered 401 with
    [{error: "Unauthorized"}], and the world is left exactly as it was: no
    effect is performed, so no upstream fetch and no write to the store. *)
Theorem unauthorized_refresh_rejected `{Platform} (E : env) (req : request) (w : world) :
  (authorization req = None
   \/ exists header, authorization req = Some header
                     /\ String.prefix "Bearer " header = false) ->
  UpdateData.handler E req w =
    (Normal {| res_status := 401; res_body := VObj [("error", VStr "Unauthorized")] |}, w).
Proof.
  intros Hauth. unfold UpdateData.handler.
  assert (UpdateData.unauthorized (authorization req) = true) as ->; [|done].
  destruct Hauth as [-> | (header & -> & Hprefix)]; [done|].
  unfold UpdateData.unauthorized. rewrite Hprefix. apply orb_true_r.
Qed.

(** A callback that succeeds on every element maps the whole array, in order. *)
Lemma map_elems_Forall2 {A B} (f : value -> completion B) (g : A -> B)
    (items : list value) (recs : list A) :
  Forall2 (fun item r => f item = Normal (g r)) items recs ->
  map_elems f items = Normal (map g recs).
Proof.
  induction 1 as [|item r items recs Hitem _ IH]; [done|].
  simpl. by rewrite Hitem, IH.
Qed.

(** C5. Whatever the identifier: when the upstream call fails (transport
    failure, a status other than 200, a body that does not parse), the TVL and
    the price fetcher return the empty sequence; and in no case at all does a
    fetcher end with an exception or touch the store. The refresh around them
    therefore completes: it answers 200 and stores for every chain the series
    its own fetcher returned, whatever happened to the other chains. *)
Theorem fetchers_swallow_failures `{Platform} (E : env) :
  (forall id w,
     upstream_fails (upstream E (tvl_url id)) = true ->
     exists evs, UpdateData.fetchTvlData E id w = (Normal (VArr []), run_events E evs w))
  /\ (forall id w,
        upstream_fails (upstream E (price_url id)) = true ->
        exists evs, UpdateData.fetchPriceData E id w = (Normal (VArr []), run_events E evs w))
  /\ (forall id w,
        exists pts evs,
          UpdateData.fetchTvlData E id w = (Normal (VArr pts), run_events E evs w))
  /\ (forall id w,
        exists pts evs,
          UpdateData.fetchPriceData E id w = (Normal (VArr pts), run_events E evs w))
  /\ (forall req w,
        UpdateData.unauthorized (authorization req) = false ->
        exists resp tvl price,
          fst (UpdateData.handler E req w) = Normal resp
          /\ res_status resp = 200
          /\ kv (snd (UpdateData.handler E req w)) !! "blockchain_data"
             = Some (jsonify (dataset_of tvl price))
          /\ forall name ids, In (name, ids) UpdateData.BLOCKCHAIN_MAPPING ->
               exists tvl_series price_series,
                 lookup_prop name tvl = Some tvl_series
                 /\ lookup_prop name price = Some price_series
                 /\ (forall w0, fst (UpdateData.fetchTvlData E (defillama ids) w0)
                                = Normal tvl_series)
                 /\ (forall w0, fst (UpdateData.fetchPriceData E (coingecko ids) w0)
                                = Normal price_series)).
Proof.
  split; [|split; [|split; [|split]]].
  - intros id w Hfails. eexists. rewrite (fetchTvlData_performs E id w).
    by rewrite (tvl_series_on_failure E id Hfails).
  - intros id w Hfails. eexists. rewrite (fetchPriceData_performs E id w).
    by rewrite (price_series_on_failure E id Hfails).
  - intros id w. destruct (tvl_series_is_array E id) as [pts Hpts].
    eexists _, _. rewrite (fetchTvlData_performs E id w). by rewrite Hpts.
  - intros id w. destruct (price_series_is_array E id) as [pts Hpts].
    eexists _, _. rewrite (fetchPriceData_performs E id w). by rewrite Hpts.
  - intros req w Hauth. rewrite (update_handler_run E req w Hauth).
    unfold refreshed. rewrite refresh_dataset_eq. cbn [fst snd kv].
    eexists _, _, _. split; [reflexivity|]. split; [reflexivity|]. split.
    + rewrite lookup_insert_ne by done. apply lookup_insert_eq.
    + intros name ids Hin. eexists _, _.
      split; [apply (lookup_tvl_entries _ _ name ids mapping_keys_distinct Hin)|].
      split; [apply (lookup_price_entries _ _ name ids mapping_keys_distinct Hin)|].
      split; intros w0.
      * by rewrite (fetchTvlData_performs E (defillama ids) w0).
      * by rewrite (fetchPriceData_performs E (coingecko ids) w0).
Qed.

(** C6. On an HTTP 200 answer whose body is an array of records with valid
    dates, the TVL fetcher returns, record by record and in the same order, the
    ISO-8601 timestamp of [date * 1000] paired with the record's [tvl]; on an
    HTTP 200 answer whose [prices] is an array of [[timestamp, price]] pairs
    with valid timestamps, the price fetcher returns, pair by pair and in the
    same order, [{date, timestamp, price}]. Both outputs are as long as the
    upstream sequence. *)
Theorem fetchers_map_upstream_in_order `{Platform} (E : env) :
  (forall id w items (recs : list (Z * value)),
     upstream E (tvl_url id) = FetchResolves {| status := 200; body := Some (VArr items) |} ->
     Forall2 (fun item r => tvl_record item (fst r) (snd r)) items recs ->
     exists points,
       UpdateData.fetchTvlData E id w
       = (Normal (VArr points), step E (EvFetch (tvl_url id)) w)
       /\ points = map (fun r => VObj [("date", VStr (iso_string (fst r)));
                                       ("tvl", snd r)]) recs
       /\ length points = length items)
  /\ (forall id w data items (recs : list (Z * (value * value))),
        upstream E (price_url id) = FetchResolves {| status := 200; body := Some data |} ->
        get_field data "prices" = Normal (VArr items) ->
        Forall2 (fun item r => price_record item (fst r) (fst (snd r)) (snd (snd r)))
          items recs ->
        exists points,
          UpdateData.fetchPriceData E id w
          = (Normal (VArr points), step E (EvFetch (price_url id)) w)
          /\ points = map (fun r => VObj [("date", VStr (iso_string (fst r)));
                                          ("timestamp", fst (snd r));
                                          ("price", snd (snd r))]) recs
          /\ length points = length items).
Proof.
  split.
  - intros id w items recs Hup Hrecs. eexists. split; [|split; [reflexivity|]].
    + unfold UpdateData.fetchTvlData, try_catch, fetch, tvl_url in *.
      unfold mbind at 1, M_bind at 1. rewrite Hup. run_M.
      erewrite (map_elems_Forall2 _ _ items recs); [reflexivity|].
      eapply Forall2_impl; [exact Hrecs|]. intros item [t v] (d & -> & Ht & ->).
      simpl in *. by rewrite Ht.
    + rewrite length_map. symmetry. by eapply Forall2_length.
  - intros id w data items recs Hup Hprices Hrecs.
    eexists. split; [|split; [reflexivity|]].
    + unfold UpdateData.fetchPriceData, try_catch, fetch, price_url in *.
      unfold mbind at 1, M_bind at 1. rewrite Hup. run_M. rewrite Hprices. simpl.
      erewrite (map_elems_Forall2 _ _ items recs); [reflexivity|].
      eapply Forall2_impl; [exact Hrecs|]. intros item [t [ts p]] [-> Ht].
      simpl in *. by rewrite Ht.
    + rewrite length_map. symmetry. by eapply Forall2_length.
Qed.

(** C10. On an HTTP 200 answer whose body has no [prices] property, or has
    it as [null], the price fetcher of both endpoints returns the empty
    sequence; for a body whose properties can be read at all (anything but
    [null]) it does so without an exception being thrown: the fetch is its only
    effect. *)
Theorem price_fetcher_defaults_prices `{Platform} (E : env) (id : string) (w : world)
    (data : value) :
  upstream E (price_url id) = FetchResolves {| status := 200; body := Some data |} ->
  (forall props, data = VObj props ->
     lookup_prop "prices" props = None \/ lookup_prop "prices" props = Some VNull) ->
  fst (UpdateData.fetchPriceData E id w) = Normal (VArr [])
  /\ fst (BlockchainData.fetchPriceData E id w) = Normal (VArr [])
  /\ (readable data = true ->
      UpdateData.fetchPriceData E id w
      = (Normal (VArr []), step E (EvFetch (price_url id)) w)
      /\ BlockchainData.fetchPriceData E id w
         = (Normal (VArr []), step E (EvFetch (price_url id)) w)).
Proof.
  intros Hup Hprices.
  change (BlockchainData.fetchPriceData E id w) with (UpdateData.fetchPriceData E id w).
  assert (readable data = true ->
          UpdateData.fetchPriceData E id w
          = (Normal (VArr []), step E (EvFetch (price_url id)) w)) as Hreadable.
  { intros Hr. unfold UpdateData.fetchPriceData, try_catch, fetch, price_url in *.
    unfold mbind at 1, M_bind at 1. rewrite Hup. run_M.
    destruct data as [| |b|x|s|l|props]; try done.
    simpl. by destruct (Hprices props eq_refl) as [-> | ->]. }
  split; [|split; [|by auto]].
  - destruct data as [| |b|x|s|l|props];
      try (by rewrite Hreadable);
      unfold UpdateData.fetchPriceData, try_catch, fetch, price_url in *;
      unfold mbind at 1, M_bind at 1; rewrite Hup; by run_M.
  - destruct data as [| |b|x|s|l|props];
      try (by rewrite Hreadable);
      unfold UpdateData.fetchPriceData, try_catch, fetch, price_url in *;
      unfold mbind at 1, M_bind at 1; rewrite Hup; by run_M.
Qed.

(** ** The card's metrics *)

Import BlockchainCard.

Lemma lookup_map {A B} (f : A -> B) (l : list A) (i : nat) :
  map f l !! i = f <$> l !! i.
Proof. apply (list_lookup_fmap f l i). Qed.

Lemma monthAgoIndex_range n : 0 < n -> 0 <= monthAgoIndex n < n.
Proof. intros Hn. unfold monthAgoIndex. destruct (30 <? n) eqn:Hlong; lia. Qed.

(** Reading a field at an index inside the array gives the element there. *)
Lemma field_at_map {A} (f : value -> A) (g : A -> value) (h : value -> value)
    (items : list value) (i : Z) :
  (forall item, g (f item) = h item) ->
  0 <= i < Z.of_nat (length items) ->
  field_at (map f items) i g = Normal (default VUndef (map h items !! Z.to_nat i)).
Proof.
  intros Hgf Hi. unfold field_at, at_index.
  destruct (i <? 0) eqn:Hneg; [lia|]. rewrite !lookup_map.
  destruct (lookup_lt_is_Some_2 items (Z.to_nat i)) as [x ->]; [lia|].
  simpl. by rewrite Hgf.
Qed.

Section CardFacts.
Context `{Platform}.

Lemma get_field_readable item key :
  readable item = true -> get_field item key = Normal (prop_of item key).
Proof. unfold prop_of. by destruct item. Qed.

Lemma formattedTvlData_run items :
  Forall (fun item => readable item = true) items ->
  formattedTvlData (VArr items)
  = Normal (map (fun item => {| tvl_date := new_Date (prop_of item "date");
                                tvl := prop_of item "tvl" |}) items).
Proof.
  intros Hitems. unfold formattedTvlData, Array_map.
  induction Hitems as [|item items Hitem _ IH]; [done|].
  cbn [map_elems map]. rewrite IH, !(get_field_readable _ _ Hitem). done.
Qed.

Lemma formattedPriceData_run items :
  Forall (fun item => readable item = true) items ->
  formattedPriceData (VArr items)
  = Normal (map (fun item => {| price_date := new_Date (prop_of item "date");
                                price := prop_of item "price" |}) items).
Proof.
  intros Hitems. unfold formattedPriceData, Array_map.
  induction Hitems as [|item items Hitem _ IH]; [done|].
  cbn [map_elems map]. rewrite IH, !(get_field_readable _ _ Hitem). done.
Qed.

(** The metrics of two arrays of readable items, in closed form. *)
Lemma calculate_run tvlItems priceItems :
  Forall (fun item => readable item = true) tvlItems ->
  Forall (fun item => readable item = true) priceItems ->
  calculate (VArr tvlItems) (VArr priceItems)
  = Normal
      {| currentTvl := fst (series_metrics (map (fun item => prop_of item "tvl") tvlItems));
         tvlMonthlyChange :=
           snd (series_metrics (map (fun item => prop_of item "tvl") tvlItems));
         currentPrice :=
           fst (series_metrics (map (fun item => prop_of item "price") priceItems));
         priceMonthlyChange :=
           snd (series_metrics (map (fun item => prop_of item "price") priceItems)) |}.
Proof.
  intros Htvl Hprice. unfold calculate, series_metrics.
  rewrite (formattedTvlData_run _ Htvl), (formattedPriceData_run _ Hprice).
  cbn [mbind completion_bind]. rewrite !length_map.
  set (n := Z.of_nat (length tvlItems)). set (pn := Z.of_nat (length priceItems)).
  assert (0 < n -> 0 <= monthAgoIndex n < n) as Hago by apply monthAgoIndex_range.
  assert (0 < pn -> 0 <= monthAgoIndex pn < pn) as Hpago by apply monthAgoIndex_range.
  destruct (0 <? n) eqn:Hn; destruct (0 <? pn) eqn:Hpn;
    try apply Z.ltb_lt in Hn; try apply Z.ltb_lt in Hpn;
    rewrite ?(field_at_map _ tvl (fun item => prop_of item "tvl") tvlItems (n - 1))
      by (done || lia);
    rewrite ?(field_at_map _ tvl (fun item => prop_of item "tvl") tvlItems (monthAgoIndex n))
      by (done || lia);
    rewrite ?(field_at_map _ price (fun item => prop_of item "price") priceItems (pn - 1))
      by (done || lia);
    rewrite ?(field_at_map _ price (fun item => prop_of item "price") priceItems
                (monthAgoIndex pn))
      by (done || lia);
    reflexivity.
Qed.

End CardFacts.

(** C7. The lookback index of the 30-day change is 0 for every series of
    length 1 to 30, is never negative, and always lies inside a non-empty
    series, so the month-ago value of a short series is its first value. The
    change itself is 0, with no division, whenever the month-ago value is a
    zero (or anything not above zero). *)
Theorem lookback_index_is_clamped `{Platform} :
  (forall n, 0 < n <= 30 -> monthAgoIndex n = 0)
  /\ (forall n, 0 <= monthAgoIndex n)
  /\ (forall n, 0 < n -> monthAgoIndex n < n)
  /\ (forall current monthAgo,
        ToNumber monthAgo = 0%float \/ ToNumber monthAgo = neg_zero ->
        monthlyChange current monthAgo = 0%float)
  /\ (forall current monthAgo,
        gt_zero monthAgo = false -> monthlyChange current monthAgo = 0%float)
  /\ (forall tvlItems priceItems first,
        Forall (fun item => readable item = true) tvlItems ->
        Forall (fun item => readable item = true) priceItems ->
        (length tvlItems <= 30)%nat ->
        tvlItems !! 0%nat = Some first ->
        exists m last,
          calculate (VArr tvlItems) (VArr priceItems) = Normal m
          /\ tvlItems !! (length tvlItems - 1)%nat = Some last
          /\ currentTvl m = prop_of last "tvl"
          /\ tvlMonthlyChange m
             = monthlyChange (prop_of last "tvl") (prop_of first "tvl"))
  /\ (forall tvlItems priceItems first,
        Forall (fun item => readable item = true) tvlItems ->
        Forall (fun item => readable item = true) priceItems ->
        (length priceItems <= 30)%nat ->
        priceItems !! 0%nat = Some first ->
        exists m last,
          calculate (VArr tvlItems) (VArr priceItems) = Normal m
          /\ priceItems !! (length priceItems - 1)%nat = Some last
          /\ currentPrice m = prop_of last "price"
          /\ priceMonthlyChange m
             = monthlyChange (prop_of last "price") (prop_of first "price")).
Proof.
  assert (forall (f : value -> value) items first,
            (length items <= 30)%nat -> items !! 0%nat = Some first ->
            exists last,
              items !! (length items - 1)%nat = Some last
              /\ series_metrics (map f items) = (f last, monthlyChange (f last) (f first)))
    as Hshort.
  { intros f items first Hlen Hfirst. unfold series_metrics. rewrite length_map.
    assert (0 < length items)%nat as Hpos by (destruct items; [done|simpl; lia]).
    destruct (lookup_lt_is_Some_2 items (length items - 1)) as [last Hlast]; [lia|].
    exists last. split; [done|].
    replace (0 <? Z.of_nat (length items)) with true by (symmetry; apply Z.ltb_lt; lia).
    replace (monthAgoIndex (Z.of_nat (length items))) with 0
      by (unfold monthAgoIndex; destruct (30 <? _) eqn:Hlong; lia).
    replace (Z.to_nat (Z.of_nat (length items) - 1)) with (length items - 1)%nat by lia.
    rewrite !lookup_map. change (Z.to_nat 0) with 0%nat. by rewrite Hlast, Hfirst. }
  repeat split.
  - intros n Hn. unfold monthAgoIndex. destruct (30 <? n) eqn:Hlong; lia.
  - intros n. unfold monthAgoIndex. destruct (30 <? n) eqn:Hlong; lia.
  - intros n Hn. by apply monthAgoIndex_range.
  - intros current monthAgo Hzero. unfold monthlyChange, gt_zero.
    by destruct Hzero as [-> | ->].
  - intros current monthAgo Hnot. unfold monthlyChange. by rewrite Hnot.
  - intros tvlItems priceItems first Htvl Hprice Hlen Hfirst.
    destruct (Hshort (fun item => prop_of item "tvl") tvlItems first Hlen Hfirst)
      as (last & Hlast & Hmetrics).
    eexists _, last. split; [apply (calculate_run _ _ Htvl Hprice)|].
    split; [done|]. simpl. by rewrite Hmetrics.
  - intros tvlItems priceItems first Htvl Hprice Hlen Hfirst.
    destruct (Hshort (fun item => prop_of item "price") priceItems first Hlen Hfirst)
      as (last & Hlast & Hmetrics).
    eexists _, last. split; [apply (calculate_run _ _ Htvl Hprice)|].
    split; [done|]. simpl. by rewrite Hmetrics.
Qed.

(** C8. For a TVL series of 90 points whose last value is 150 and whose
    31st value from the end (index 59 = 90 - 31) is 120, the lookback index is
    59, the 30-day change is (150 - 120) / 120 * 100 = 25, and the tile shows
    "+25.00%". *)
Theorem ninety_point_change_is_25 `{Platform} (tvlItems priceItems : list value)
    (last monthAgo : value) :
  Forall (fun item => readable item = true) tvlItems ->
  Forall (fun item => readable item = true) priceItems ->
  length tvlItems = 90%nat ->
  tvlItems !! 89%nat = Some last ->
  prop_of last "tvl" = VNum 150 ->
  tvlItems !! 59%nat = Some monthAgo ->
  prop_of monthAgo "tvl" = VNum 120 ->
  exists m,
    calculate (VArr tvlItems) (VArr priceItems) = Normal m
    /\ monthAgoIndex (Z.of_nat (length tvlItems)) = 59
    /\ currentTvl m = VNum 150
    /\ tvlMonthlyChange m = 25%float
    /\ changeText (tvlMonthlyChange m) = "+25.00%".
Proof.
  intros Htvl Hprice Hlen Hlast Hlastv Hago Hagov.
  eexists. split; [apply (calculate_run _ _ Htvl Hprice)|].
  rewrite Hlen. split; [done|]. cbn [currentTvl tvlMonthlyChange].
  unfold series_metrics. rewrite length_map, Hlen.
  change (0 <? Z.of_nat 90) with true. cbn iota.
  change (Z.to_nat (Z.of_nat 90 - 1)) with 89%nat.
  change (Z.to_nat (monthAgoIndex (Z.of_nat 90))) with 59%nat.
  rewrite !lookup_map, Hlast, Hago. cbn [fmap option_fmap option_map default fst snd].
  rewrite Hlastv, Hagov. by vm_compute.
Qed.

(** C9. The read endpoint and the refresh endpoint carry the same fetchers
    and the same mapping, and each is the specification's one refresh routine
    between its own policy and its own response: the read endpoint runs it
    after its freshness check fails, the refresh endpoint after its
    authorization check passes. With the same upstream answers the two
    therefore perform the same loop effects and write the same Dataset. *)
Theorem endpoints_share_the_refresh_routine `{Platform} (E : env) :
  BlockchainData.fetchTvlData E = UpdateData.fetchTvlData E
  /\ BlockchainData.fetchPriceData E = UpdateData.fetchPriceData E
  /\ BlockchainData.BLOCKCHAIN_MAPPING = UpdateData.BLOCKCHAIN_MAPPING
  /\ (forall req w,
        fresh E w = false ->
        BlockchainData.handler E req w =
        (r ← Aggregator.aggregate E (UpdateData.fetchTvlData E)
               (UpdateData.fetchPriceData E) UpdateData.BLOCKCHAIN_MAPPING;
         mret {| res_status := 200;
                 res_body := VObj [("data", fst r); ("lastUpdated", VStr (snd r))] |})
          (run_events E cache_reads w))
  /\ (forall req w,
        UpdateData.unauthorized (authorization req) = false ->
        UpdateData.handler E req w =
        (r ← Aggregator.aggregate E (UpdateData.fetchTvlData E)
               (UpdateData.fetchPriceData E) UpdateData.BLOCKCHAIN_MAPPING;
         mret {| res_status := 200;
                 res_body := VObj [("success", VBool true);
                                   ("lastUpdated", VStr (snd r))] |}) w)
  /\ (forall req_read w_read req_refresh w_refresh,
        fresh E w_read = false ->
        UpdateData.unauthorized (authorization req_refresh) = false ->
        exists newData evs stamp_read stamp_refresh,
          trace (snd (BlockchainData.handler E req_read w_read))
          = trace w_read ++ cache_reads ++ evs
            ++ [EvKvSet "blockchain_data" newData; EvKvSet "last_updated" stamp_read]
          /\ trace (snd (UpdateData.handler E req_refresh w_refresh))
             = trace w_refresh ++ evs
               ++ [EvKvSet "blockchain_data" newData; EvKvSet "last_updated" stamp_refresh]
          /\ kv (snd (BlockchainData.handler E req_read w_read)) !! "blockchain_data"
             = Some (jsonify newData)
          /\ kv (snd (UpdateData.handler E req_refresh w_refresh)) !! "blockchain_data"
             = Some (jsonify newData)).
Proof.
  split; [reflexivity|]. split; [reflexivity|]. split; [reflexivity|].
  split; [|split].
  - intros req w Hmiss. rewrite (read_handler_stale E req w Hmiss).
    apply read_refresh_refines.
  - intros req w Hauth. by apply update_handler_refines.
  - intros req_read w_read req_refresh w_refresh Hmiss Hauth.
    rewrite (read_handler_miss_run E req_read w_read Hmiss).
    rewrite (update_handler_run E req_refresh w_refresh Hauth).
    unfold refreshed. cbn [snd trace kv].
    exists (refresh_dataset E), (refresh_events E). eexists _, _.
    split; [by rewrite trace_run_events, <- !app_assoc|].
    split; [reflexivity|].
    split; rewrite lookup_insert_ne by done; apply lookup_insert_eq.
Qed.

(** ** The claims at concrete inputs *)

(** C1 at the sample environment: an authorized refresh from an empty
    store, and a read over a stale cache, both store a Dataset with the
    invariant. *)
Lemma refresh_keeps_every_chain_witness :
  (exists stored,
     kv (snd (@UpdateData.handler Engine.engine Sample.E Sample.bearer_header
                Sample.w_empty)) !! "blockchain_data" = Some stored
     /\ dataset_invariant Sample.E stored)
  /\ (exists stored,
        kv (snd (@BlockchainData.handler Engine.engine Sample.E Sample.no_header
                   Sample.w_stale)) !! "blockchain_data" = Some stored
        /\ dataset_invariant Sample.E stored).
Proof.
  destruct (@refresh_keeps_every_chain Engine.engine Sample.E) as [Hrefresh Hread].
  split.
  - destruct (Hrefresh Sample.bearer_header Sample.w_empty) as (resp & stored & _ & Hs & Hi);
      [by vm_compute|]. eauto.
  - destruct (Hread Sample.no_header Sample.w_stale) as (d & l & stored & _ & _ & Hs & Hi);
      [by vm_compute|]. eauto.
Defined.

(** C2 at the sample world whose cache is half an hour old. *)
Lemma fresh_read_serves_cache_witness :
  exists w',
    @BlockchainData.handler Engine.engine Sample.E Sample.no_header Sample.w_fresh =
      (Normal {| res_status := 200;
                 res_body := VObj [("data", Sample.some_dataset);
                                   ("lastUpdated", VStr "2024-03-30T23:30:00.000Z")] |},
       w')
    /\ kv w' = kv Sample.w_fresh
    /\ exists evs, trace w' = trace Sample.w_fresh ++ evs
                   /\ fetched evs = [] /\ written evs = [].
Proof.
  apply (@fresh_read_serves_cache Engine.engine Sample.E Sample.no_header Sample.w_fresh
           Sample.some_dataset (VStr "2024-03-30T23:30:00.000Z") 1711841400000);
    by vm_compute.
Defined.


(** C4 for a request without the header, from the empty store. *)
Lemma unauthorized_refresh_rejected_witness :
  @UpdateData.handler Engine.engine Sample.E Sample.no_header Sample.w_empty =
    (Normal {| res_status := 401; res_body := VObj [("error", VStr "Unauthorized")] |},
     Sample.w_empty).
Proof.
  apply (@unauthorized_refresh_rejected Engine.engine Sample.E Sample.no_header
           Sample.w_empty).
  by left.
Defined.

(** C5 at the sample environment: Flow's TVL call fails in transport and
    Avalanche's price call is rate-limited, both fetchers return the empty
    sequence, and the refresh around them answers 200. *)
Lemma fetchers_swallow_failures_witness :
  (exists evs,
     @UpdateData.fetchTvlData Engine.engine Sample.E "flow" Sample.w_empty
     = (Normal (VArr []), run_events Sample.E evs Sample.w_empty))
  /\ (exists evs,
        @UpdateData.fetchPriceData Engine.engine Sample.E "avalanche-2" Sample.w_empty
        = (Normal (VArr []), run_events Sample.E evs Sample.w_empty))
  /\ (exists resp,
        fst (@UpdateData.handler Engine.engine Sample.E Sample.bearer_header Sample.w_empty)
        = Normal resp /\ res_status resp = 200).
Proof.
  destruct (@fetchers_swallow_failures Engine.engine Sample.E)
    as (Htvl & Hprice & _ & _ & Hrefresh).
  split; [apply Htvl; by vm_compute|]. split; [apply Hprice; by vm_compute|].
  destruct (Hrefresh Sample.bearer_header Sample.w_empty) as (resp & _ & _ & Hresp & Hok & _);
    [by vm_compute|]. eauto.
Defined.

(** C6 at the sample environment: Aptos's two TVL records and two price
    pairs come back as two points each, in the upstream order. *)
Lemma fetchers_map_upstream_in_order_witness :
  fst (@UpdateData.fetchTvlData Engine.engine Sample.E "aptos" Sample.w_empty)
  = Normal (VArr [VObj [("date", VStr "2024-01-01T00:00:00.000Z"); ("tvl", VNum 100.5)];
                  VObj [("date", VStr "2024-01-02T00:00:00.000Z"); ("tvl", VNum 101)]])
  /\ fst (@UpdateData.fetchPriceData Engine.engine Sample.E "aptos" Sample.w_empty)
     = Normal (VArr [VObj [("date", VStr "2024-01-01T00:00:00.000Z");
                           ("timestamp", VNum 1704067200000); ("price", VNum 9.5)];
                     VObj [("date", VStr "2024-01-02T00:00:00.000Z");
                           ("timestamp", VNum 1704153600000); ("price", VNum 9.75)]]).
Proof.
  destruct (@fetchers_map_upstream_in_order Engine.engine Sample.E) as [Htvl Hprice].
  split.
  - destruct (Htvl "aptos" Sample.w_empty
                [VObj [("date", VNum 1704067200); ("tvl", VNum 100.5)];
                 VObj [("date", VNum 1704153600); ("tvl", VNum 101)]]
                [(1704067200000, VNum 100.5); (1704153600000, VNum 101)])
      as (points & Hrun & -> & _).
    + reflexivity.
    + repeat constructor; eexists; (split; [reflexivity|]); split; by vm_compute.
    + by rewrite Hrun.
  - destruct (Hprice "aptos" Sample.w_empty
                (VObj [("prices", VArr [VArr [VNum 1704067200000; VNum 9.5];
                                        VArr [VNum 1704153600000; VNum 9.75]])])
                [VArr [VNum 1704067200000; VNum 9.5]; VArr [VNum 1704153600000; VNum 9.75]]
                [(1704067200000, (VNum 1704067200000, VNum 9.5));
                 (1704153600000, (VNum 1704153600000, VNum 9.75))])
      as (points & Hrun & -> & _).
    + reflexivity.
    + reflexivity.
    + repeat constructor; by vm_compute.
    + by rewrite Hrun.
Defined.

(** C6 as first stated, without the condition on the records, fails: on
    HTTP 200 answers of two records (two pairs) of numbers, the second with a
    date beyond the range of JavaScript dates, both fetchers return the empty
    sequence, not a sequence of length two. *)
Lemma fetchers_drop_the_series_on_one_invalid_date :
  upstream Sample.E_far_future (tvl_url "aptos")
  = FetchResolves {| status := 200; body := Some (VArr Sample.two_tvl_records) |}
  /\ length Sample.two_tvl_records = 2%nat
  /\ fst (@UpdateData.fetchTvlData Engine.engine Sample.E_far_future "aptos" Sample.w_empty)
     = Normal (VArr [])
  /\ upstream Sample.E_far_future (price_url "aptos")
     = FetchResolves {| status := 200;
                        body := Some (VObj [("prices", VArr Sample.two_price_pairs)]) |}
  /\ length Sample.two_price_pairs = 2%nat
  /\ fst (@UpdateData.fetchPriceData Engine.engine Sample.E_far_future "aptos"
            Sample.w_empty)
     = Normal (VArr []).
Proof. repeat split; by vm_compute. Qed.

(** C7 on the sample's twelve price points (first 2, last 3): the lookback
    falls on the first point and the change is (3 - 2) / 2 * 100 = 50. *)
Lemma lookback_index_is_clamped_witness :
  exists m,
    @calculate Engine.engine (VArr Sample.ninety_points) (VArr Sample.twelve_points)
    = Normal m
    /\ currentPrice m = VNum 3
    /\ priceMonthlyChange m = 50%float.
Proof.
  destruct (@lookback_index_is_clamped Engine.engine) as (_ & _ & _ & _ & _ & _ & Hprice).
  destruct (Hprice Sample.ninety_points Sample.twelve_points (Sample.price_point_at 0))
    as (m & last & Hrun & Hlast & Hcurrent & Hchange).
  - repeat constructor.
  - repeat constructor.
  - vm_compute. lia.
  - reflexivity.
  - exists m. split; [exact Hrun|]. injection Hlast as <-.
    rewrite Hcurrent, Hchange. split; by vm_compute.
Defined.

(** C8 on the sample's ninety TVL points. *)
Lemma ninety_point_change_is_25_witness :
  exists m,
    @calculate Engine.engine (VArr Sample.ninety_points) (VArr Sample.twelve_points)
    = Normal m
    /\ tvlMonthlyChange m = 25%float
    /\ @changeText Engine.engine (tvlMonthlyChange m) = "+25.00%".
Proof.
  destruct (@ninety_point_change_is_25 Engine.engine Sample.ninety_points
              Sample.twelve_points (Sample.tvl_point_at 89) (Sample.tvl_point_at 59))
    as (m & Hrun & _ & _ & Hchange & Htext); try reflexivity; try (repeat constructor).
  by exists m.
Defined.

(** C9 at the sample environment: a read over the stale cache and an
    authorized refresh from the empty store write the same Dataset. *)
Lemma endpoints_share_the_refresh_routine_witness :
  exists newData,
    kv (snd (@BlockchainData.handler Engine.engine Sample.E Sample.no_header
               Sample.w_stale)) !! "blockchain_data" = Some (jsonify newData)
    /\ kv (snd (@UpdateData.handler Engine.engine Sample.E Sample.bearer_header
                  Sample.w_empty)) !! "blockchain_data" = Some (jsonify newData).
Proof.
  destruct (@endpoints_share_the_refresh_routine Engine.engine Sample.E)
    as (_ & _ & _ & _ & _ & Hsame).
  destruct (Hsame Sample.no_header Sample.w_stale Sample.bearer_header Sample.w_empty)
    as (newData & evs & s1 & s2 & _ & _ & Hread & Hrefresh); try by vm_compute.
  by exists newData.
Defined.

(** C10 at the sample environment: Sei's price body is [{status: "ok"}],
    without [prices]. *)
Lemma price_fetcher_defaults_prices_witness :
  @UpdateData.fetchPriceData Engine.engine Sample.E "sei-network" Sample.w_empty
  = (Normal (VArr []), step Sample.E (EvFetch (price_url "sei-network")) Sample.w_empty).
Proof.
  destruct (@price_fetcher_defaults_prices Engine.engine Sample.E "sei-network"
              Sample.w_empty (VObj [("status", VStr "ok")])) as (_ & _ & Hrun).
  - reflexivity.
  - intros props [= <-]. by left.
  - by apply Hrun.
Defined.

(** * Further properties of the code *)

Import BlockchainCardView Dashboard Traces.

#[local] Transparent run_events.

(** ** The fetchers on malformed answers *)

(** The first element on which the callback throws ends [map]. *)
Lemma map_elems_Exists {B} (f : value -> completion B) (items : list value) :
  Exists (fun item => exists e, f item = Throw e) items ->
  exists e, map_elems f items = Throw e.
Proof.
  induction 1 as [item items [e He]|item items _ [e IH]]; simpl.
  - rewrite He. by exists e.
  - destruct (f item); [|by eexists]. rewrite IH. by exists e.
Qed.

(** What holds of every result of the callback holds of every element of
    the mapped array. *)
Lemma map_elems_Forall {B} (f : value -> completion B) (P : B -> Prop)
    (items : list value) (out : list B) :
  (forall item y, f item = Normal y -> P y) ->
  map_elems f items = Normal out -> Forall P out.
Proof.
  intros Hf. revert out. induction items as [|item items IH]; intros out; simpl.
  - intros [= <-]. constructor.
  - destruct (f item) as [y|] eqn:Hy; [|done].
    destruct (map_elems f items) as [ys|]; [|done].
    intros [= <-]. constructor; [by eapply Hf|by apply IH].
Qed.

(** X1. All or nothing: on an HTTP 200 answer, one record that cannot be
    read ([null]) or whose date is not a valid time makes the TVL fetcher
    return the empty sequence for the whole chain and log the exception; one
    pair that cannot be destructured or whose timestamp is not a valid date
    does the same to the price fetcher. *)
Theorem one_bad_record_empties_the_series `{Platform} (E : env) :
  (forall id w items,
     upstream E (tvl_url id) = FetchResolves {| status := 200; body := Some (VArr items) |} ->
     Exists (fun item => readable item = false
                         \/ TimeClip (ToNumber (prop_of item "date") * 1000)%float = None)
       items ->
     exists error,
       UpdateData.fetchTvlData E id w
       = (Normal (VArr []),
          run_events E
            [EvFetch (tvl_url id);
             EvConsoleError ("Exception when fetching TVL data for " ++ id ++ ":")%string
               (Some error)] w))
  /\ (forall id w data items,
        upstream E (price_url id) = FetchResolves {| status := 200; body := Some data |} ->
        get_field data "prices" = Normal (VArr items) ->
        Exists (fun item =>
                  (exists e, destructure_pair item = Throw e)
                  \/ exists timestamp price,
                       destructure_pair item = Normal (timestamp, price)
                       /\ new_Date timestamp = None)
          items ->
        exists error,
          UpdateData.fetchPriceData E id w
          = (Normal (VArr []),
             run_events E
               [EvFetch (price_url id);
                EvConsoleError ("Exception when fetching price data for " ++ id ++ ":")%string
                  (Some error)] w)).
Proof.
  split.
  - intros id w items Hup Hbad.
    unfold UpdateData.fetchTvlData, try_catch, fetch, tvl_url in *.
    unfold mbind at 1, M_bind at 1. rewrite Hup. run_M.
    match goal with |- context [map_elems ?f items] =>
      destruct (map_elems_Exists f items) as [e ->] end; [|by exists e].
    eapply Exists_impl; [exact Hbad|]. intros item [Hr | Hdate].
    + exists TypeError. by destruct item.
    + destruct (readable item) eqn:Hr; [|exists TypeError; by destruct item].
      exists RangeError. rewrite (get_field_readable item "date" Hr).
      cbn [mbind completion_bind]. by rewrite Hdate.
  - intros id w data items Hup Hprices Hbad.
    unfold UpdateData.fetchPriceData, try_catch, fetch, price_url in *.
    unfold mbind at 1, M_bind at 1. rewrite Hup. run_M. rewrite Hprices. simpl.
    match goal with |- context [map_elems ?f items] =>
      destruct (map_elems_Exists f items) as [e ->] end; [|by exists e].
    eapply Exists_impl; [exact Hbad|].
    intros item [[e He] | (ts & p & Hpair & Hdate)].
    + exists e. by rewrite He.
    + exists RangeError. rewrite Hpair. simpl. by rewrite Hdate.
Qed.

(** X1 at the sample environment: Sei's only TVL record has no date. *)
Lemma one_bad_record_empties_the_series_witness :
  exists error,
    @UpdateData.fetchTvlData Engine.engine Sample.E "sei" Sample.w_empty
    = (Normal (VArr []),
       run_events Sample.E
         [EvFetch (tvl_url "sei");
          EvConsoleError "Exception when fetching TVL data for sei:" (Some error)]
         Sample.w_empty).
Proof.
  destruct (@one_bad_record_empties_the_series Engine.engine Sample.E) as [Htvl _].
  apply (Htvl "sei" Sample.w_empty [VObj [("tvl", VNum 1)]]); [reflexivity|].
  constructor. right. by vm_compute.
Defined.

(** X2. Whatever the upstream answers, every element of the series a
    fetcher returns is an object [{date, tvl}], respectively
    [{date, timestamp, price}], whose date is a string. *)
Theorem fetchers_return_points `{Platform} (E : env) (id : string) (w : world) :
  (exists points evs,
     UpdateData.fetchTvlData E id w = (Normal (VArr points), run_events E evs w)
     /\ Forall is_tvl_point points)
  /\ (exists points evs,
        UpdateData.fetchPriceData E id w = (Normal (VArr points), run_events E evs w)
        /\ Forall is_price_point points).
Proof.
  split.
  - exists (match series_of (UpdateData.fetchTvlData E) id with VArr l => l | _ => [] end),
      (events_of (UpdateData.fetchTvlData E) id).
    rewrite (fetchTvlData_performs E id w).
    destruct (tvl_series_is_array E id) as [points Hpoints]. rewrite Hpoints.
    split; [done|]. revert Hpoints.
    unfold series_of, UpdateData.fetchTvlData, try_catch, fetch.
    unfold mbind, M_bind, json, lift, console_error, emit.
    destruct (upstream E _) as [|[st [data|]]]; simpl; [by intros [= <-]| |].
    + destruct (st =? 200); simpl; [|by intros [= <-]].
      destruct (Array_map _ data) as [out|] eqn:Hmap; simpl; intros [= <-]; [|done].
      destruct data; try done. simpl in Hmap.
      eapply map_elems_Forall; [|exact Hmap]. intros item y Hy. simpl in Hy.
      destruct (get_field item "date") as [d|]; [|done]. simpl in Hy.
      destruct (toISOString _) as [date|]; [|done]. simpl in Hy.
      destruct (get_field item "tvl") as [v|]; [|done]. injection Hy as <-.
      by exists date, v.
    + destruct (st =? 200); simpl; by intros [= <-].
  - exists (match series_of (UpdateData.fetchPriceData E) id with VArr l => l | _ => [] end),
      (events_of (UpdateData.fetchPriceData E) id).
    rewrite (fetchPriceData_performs E id w).
    destruct (price_series_is_array E id) as [points Hpoints]. rewrite Hpoints.
    split; [done|]. revert Hpoints.
    unfold series_of, UpdateData.fetchPriceData, try_catch, fetch.
    unfold mbind, M_bind, json, lift, console_error, emit.
    destruct (upstream E _) as [|[st [data|]]]; simpl; [by intros [= <-]| |].
    + destruct (st =? 200); simpl; [|by intros [= <-]].
      destruct (get_field data "prices") as [p|]; simpl; [|by intros [= <-]].
      destruct (Array_map _ _) as [out|] eqn:Hmap; simpl; intros [= <-]; [|done].
      destruct (if truthy p then p else VArr []); try done. simpl in Hmap.
      eapply map_elems_Forall; [|exact Hmap]. intros item y Hy. simpl in Hy.
      destruct (destructure_pair item) as [[ts p']|]; [|done]. simpl in Hy.
      destruct (toISOString _) as [date|]; [|done]. injection Hy as <-.
      by exists date, ts, p'.
    + destruct (st =? 200); simpl; by intros [= <-].
Qed.

(** ** Logging and pacing *)

Section EventShape.
Context `{Platform} (E : env).

(** A fetcher's effects: its fetch, then at most one console.error. *)
Lemma tvl_events_shape id :
  exists logs,
    events_of (UpdateData.fetchTvlData E) id = EvFetch (tvl_url id) :: logs
    /\ (logs = [] \/ exists msg err, logs = [EvConsoleError msg err]).
Proof.
  unfold events_of, UpdateData.fetchTvlData, try_catch, fetch, tvl_url.
  unfold mbind, M_bind, json, lift, console_error, emit.
  destruct (upstream E _) as [|[st [data|]]]; simpl; [eauto 6| |].
  - destruct (st =? 200); simpl; [|eauto 6].
    destruct (Array_map _ data); simpl; eauto 6.
  - destruct (st =? 200); simpl; eauto 6.
Qed.

Lemma price_events_shape id :
  exists logs,
    events_of (UpdateData.fetchPriceData E) id = EvFetch (price_url id) :: logs
    /\ (logs = [] \/ exists msg err, logs = [EvConsoleError msg err]).
Proof.
  unfold events_of, UpdateData.fetchPriceData, try_catch, fetch, price_url.
  unfold mbind, M_bind, json, lift, console_error, emit.
  destruct (upstream E _) as [|[st [data|]]]; simpl; [eauto 6| |].
  - destruct (st =? 200); simpl; [|eauto 6].
    destruct (get_field data "prices") as [p|]; simpl; [|eauto 6].
    destruct (Array_map _ _); simpl; eauto 6.
  - destruct (st =? 200); simpl; eauto 6.
Qed.

(** The loop of a refresh never reads the store, and between two upstream
    calls it always waits: its calls and timers alternate. *)
Lemma refresh_events_paced :
  reads (refresh_events E) = []
  /\ paced (refresh_events E)
     = flat_map (fun e => [EvFetch (tvl_url (defillama (snd e))); EvTimeout 1000;
                           EvFetch (price_url (coingecko (snd e))); EvTimeout 1000])
         UpdateData.BLOCKCHAIN_MAPPING.
Proof.
  with_strategy transparent [refresh_events] unfold refresh_events.
  induction UpdateData.BLOCKCHAIN_MAPPING as [|[name ids] l [IHr IHp]]; [done|].
  cbn [flat_map fst snd]. unfold chain_events at 1 3. cbn [fst snd].
  unfold reads, paced in *. rewrite !flat_map_app, IHr, IHp.
  destruct (tvl_events_shape (defillama ids)) as (tl & -> & Htl).
  destruct (price_events_shape (coingecko ids)) as (pl & -> & Hpl).
  destruct Htl as [-> | (m1 & e1 & ->)]; destruct Hpl as [-> | (m2 & e2 & ->)]; done.
Qed.

End EventShape.

(** X3. A failure is logged once, with the identifier: a status other than
    200 as "Error fetching ... data for <id>: <status>", a rejected fetch as an
    exception with the TypeError, a 200 body that is not JSON as an exception
    with the SyntaxError; the fetch and that one console.error are all the
    fetcher does. *)
Theorem fetchers_log_each_failure `{Platform} (E : env) (id : string) (w : world) :
  (forall st b,
     upstream E (tvl_url id) = FetchResolves {| status := st; body := b |} -> st <> 200 ->
     UpdateData.fetchTvlData E id w
     = (Normal (VArr []),
        run_events E
          [EvFetch (tvl_url id);
           EvConsoleError ("Error fetching TVL data for " ++ id ++ ": " ++ pretty st)%string
             None] w))
  /\ (upstream E (tvl_url id) = FetchRejects ->
      UpdateData.fetchTvlData E id w
      = (Normal (VArr []),
         run_events E
           [EvFetch (tvl_url id);
            EvConsoleError ("Exception when fetching TVL data for " ++ id ++ ":")%string
              (Some TypeError)] w))
  /\ (upstream E (tvl_url id) = FetchResolves {| status := 200; body := None |} ->
      UpdateData.fetchTvlData E id w
      = (Normal (VArr []),
         run_events E
           [EvFetch (tvl_url id);
            EvConsoleError ("Exception when fetching TVL data for " ++ id ++ ":")%string
              (Some SyntaxError)] w))
  /\ (forall st b,
        upstream E (price_url id) = FetchResolves {| status := st; body := b |} ->
        st <> 200 ->
        UpdateData.fetchPriceData E id w
        = (Normal (VArr []),
           run_events E
             [EvFetch (price_url id);
              EvConsoleError
                ("Error fetching price data for " ++ id ++ ": " ++ pretty st)%string
                None] w))
  /\ (upstream E (price_url id) = FetchRejects ->
      UpdateData.fetchPriceData E id w
      = (Normal (VArr []),
         run_events E
           [EvFetch (price_url id);
            EvConsoleError ("Exception when fetching price data for " ++ id ++ ":")%string
              (Some TypeError)] w))
  /\ (upstream E (price_url id) = FetchResolves {| status := 200; body := None |} ->
      UpdateData.fetchPriceData E id w
      = (Normal (VArr []),
         run_events E
           [EvFetch (price_url id);
            EvConsoleError ("Exception when fetching price data for " ++ id ++ ":")%string
              (Some SyntaxError)] w)).
Proof.
  unfold UpdateData.fetchTvlData, UpdateData.fetchPriceData, try_catch, fetch, tvl_url,
    price_url.
  unfold mbind, M_bind, json, lift, console_error, emit.
  repeat split.
  - intros st b ->. intros Hst. simpl. by destruct (Z.eqb_spec st 200).
  - by intros ->.
  - by intros ->.
  - intros st b ->. intros Hst. simpl. by destruct (Z.eqb_spec st 200).
  - by intros ->.
  - by intros ->.
Qed.

(** X3 at the sample environment: Avalanche's TVL call is answered 429,
    Flow's is rejected. *)
Lemma fetchers_log_each_failure_witness :
  @UpdateData.fetchTvlData Engine.engine Sample.E "Avalanche" Sample.w_empty
  = (Normal (VArr []),
     run_events Sample.E
       [EvFetch (tvl_url "Avalanche");
        EvConsoleError "Error fetching TVL data for Avalanche: 429" None] Sample.w_empty)
  /\ @UpdateData.fetchTvlData Engine.engine Sample.E "flow" Sample.w_empty
     = (Normal (VArr []),
        run_events Sample.E
          [EvFetch (tvl_url "flow");
           EvConsoleError "Exception when fetching TVL data for flow:" (Some TypeError)]
          Sample.w_empty).
Proof.
  split.
  - apply (proj1 (@fetchers_log_each_failure Engine.engine Sample.E "Avalanche"
                    Sample.w_empty) 429 (Some (VObj []))); [reflexivity|lia].
  - apply (proj1 (proj2 (@fetchers_log_each_failure Engine.engine Sample.E "flow"
                           Sample.w_empty))). reflexivity.
Defined.

(** X4. A refresh request whose header starts with "Bearer " runs the
    refresh whatever follows the prefix (the token is compared with nothing):
    it never reads the store, fetches the two URLs of every chain in the order
    of the mapping, then writes the dataset and the timestamp, in that order,
    leaving every other key of the store as it was, and answers 200 with
    [{success: true, lastUpdated}] carrying the stored timestamp. *)
Theorem any_bearer_token_refreshes `{Platform} (E : env) (token : string) (w : world) :
  exists newData t_new evs w',
    UpdateData.handler E {| authorization := Some ("Bearer " ++ token)%string |} w
    = (Normal {| res_status := 200;
                 res_body := VObj [("success", VBool true);
                                   ("lastUpdated", VStr (iso_string t_new))] |},
       w')
    /\ trace w' = trace w ++ evs
                  ++ [EvKvSet "blockchain_data" newData;
                      EvKvSet "last_updated" (VStr (iso_string t_new))]
    /\ reads evs = []
    /\ written evs = []
    /\ fetched evs = refresh_urls UpdateData.BLOCKCHAIN_MAPPING
    /\ kv w' !! "blockchain_data" = Some (jsonify newData)
    /\ kv w' !! "last_updated" = Some (VStr (iso_string t_new))
    /\ forall key, key <> "blockchain_data" -> key <> "last_updated" ->
                   kv w' !! key = kv w !! key.
Proof.
  rewrite (update_handler_run E _ w) by (simpl; by destruct token).
  destruct (refresh_events_fetched E) as [Hfetched Hwritten].
  destruct (refresh_events_paced E) as [Hreads _].
  exists (refresh_dataset E), (clock (run_events E (refresh_events E) w)),
    (refresh_events E), (refreshed E (refresh_dataset E) (refresh_events E) w).
  split; [reflexivity|]. unfold refreshed. cbn [trace kv].
  split; [done|]. split; [done|]. split; [done|]. split; [done|].
  split; [rewrite lookup_insert_ne by done; apply lookup_insert_eq|].
  split; [apply lookup_insert_eq|].
  intros key Hd Hl. by rewrite !lookup_insert_ne.
Qed.

(** X5. Rate limiting: in a refresh, by either endpoint, every upstream
    call is followed by a timer of 1000 ms before the next call is made; the
    calls and timers of the run are, for each chain in order, the TVL call, a
    timer, the price call, a timer. *)
Theorem refresh_waits_after_every_call `{Platform} (E : env) :
  let rounds :=
    flat_map (fun e => [EvFetch (tvl_url (defillama (snd e))); EvTimeout 1000;
                        EvFetch (price_url (coingecko (snd e))); EvTimeout 1000])
      UpdateData.BLOCKCHAIN_MAPPING in
  (forall req w,
     UpdateData.unauthorized (authorization req) = false ->
     exists evs, trace (snd (UpdateData.handler E req w)) = trace w ++ evs
                 /\ paced evs = rounds)
  /\ (forall req w,
        fresh E w = false ->
        exists evs, trace (snd (BlockchainData.handler E req w)) = trace w ++ evs
                    /\ paced evs = rounds).
Proof.
  intros rounds. destruct (refresh_events_paced E) as [_ Hpaced]. split.
  - intros req w Hauth. rewrite (update_handler_run E req w Hauth).
    unfold refreshed. cbn [snd trace]. eexists. split; [reflexivity|].
    unfold paced in *. by rewrite flat_map_app, Hpaced, app_nil_r.
  - intros req w Hmiss. rewrite (read_handler_miss_run E req w Hmiss).
    unfold refreshed. cbn [snd trace].
    exists (cache_reads ++ refresh_events E
            ++ [EvKvSet "blockchain_data" (refresh_dataset E);
                EvKvSet "last_updated"
                  (VStr (iso_string (clock (run_events E (refresh_events E)
                                              (run_events E cache_reads w)))))]).
    split.
    + with_strategy opaque [run_events] rewrite trace_run_events. by rewrite <- !app_assoc.
    + unfold paced in *. by rewrite !flat_map_app, Hpaced, app_nil_r.
Qed.

(** X5 at the sample environment, for an authorized refresh. *)
Lemma refresh_waits_after_every_call_witness :
  exists evs,
    trace (snd (@UpdateData.handler Engine.engine Sample.E Sample.bearer_header
                  Sample.w_empty)) = trace Sample.w_empty ++ evs
    /\ length (paced evs) = 36%nat.
Proof.
  destruct (proj1 (@refresh_waits_after_every_call Engine.engine Sample.E)
              Sample.bearer_header Sample.w_empty) as (evs & Htrace & Hpaced);
    [reflexivity|].
  exists evs. split; [exact Htrace|]. by rewrite Hpaced.
Defined.

(** ** Reads after a refresh *)

Lemma append_nonempty (a b : string) : String.eqb (a ++ "-" ++ b)%string "" = false.
Proof. by destruct a. Qed.

(** A timestamp is never the empty string. *)
Lemma iso_string_truthy t : truthy (VStr (iso_string t)) = true.
Proof.
  unfold iso_string, truthy. destruct (civil_from_days _) as [[y m] d].
  cbv zeta. by rewrite append_nonempty.
Qed.

Section AfterRefresh.
Context `{Platform} (E E' : env).

(** A read in the world a refresh left, less than an hour after the
    timestamp it stored, is served from the store. *)
Lemma read_after_refreshed req w stamp t :
  iso_string (clock (run_events E (refresh_events E) w)) = stamp ->
  Date_parse stamp = Some t ->
  let w1 := refreshed E (refresh_dataset E) (refresh_events E) w in
  read_time E' w1 - t < 3600000 ->
  BlockchainData.handler E' req w1
  = (Normal {| res_status := 200;
               res_body := VObj [("data", jsonify (refresh_dataset E));
                                 ("lastUpdated", VStr stamp)] |},
     run_events E' cache_reads w1).
Proof.
  intros Hstamp Hparse w1 Hlt.
  assert (kv w1 !! "blockchain_data" = Some (jsonify (refresh_dataset E))) as Hdata
    by (unfold w1, refreshed; cbn [kv]; rewrite lookup_insert_ne by done;
        apply lookup_insert_eq).
  assert (kv w1 !! "last_updated" = Some (VStr stamp)) as Hlast
    by (unfold w1, refreshed; cbn [kv]; rewrite Hstamp; apply lookup_insert_eq).
  assert (fresh E' w1 = true) as Hfresh.
  { assert (truthy (VStr stamp) = true) as Htruthy
      by (rewrite <- Hstamp; apply iso_string_truthy).
    unfold fresh, cached. rewrite Hdata, Hlast. cbn [default from_option id].
    rewrite Htruthy.
    destruct (refresh_entries_defined E) as [Htvl Hprice].
    rewrite refresh_dataset_eq, (jsonify_dataset _ _ Htvl Hprice).
    cbn [truthy dataset_of andb new_Date ToPrimitive]. rewrite Hparse.
    cbn [elapsed_lt]. by apply Z.ltb_lt. }
  rewrite (read_handler_fresh E' req w1 Hfresh). unfold cached.
  by rewrite Hdata, Hlast.
Qed.

End AfterRefresh.

(** X6. A read that refreshed is followed, for the next hour, by reads
    served from the store: if a first read missed and answered with [newData]
    and the timestamp [stamp], then any later read in the world it left whose
    freshness check happens less than 3600000 ms after that timestamp (as the
    engine parses it) answers 200 with the JSON form of [newData] and the same
    timestamp, its two reads of the store being its only effects, whatever the
    upstream services would answer by then. *)
Theorem read_after_refresh_hits `{Platform} (E E' : env) (req req' : request)
    (w w1 : world) (newData : value) (stamp : string) (t : Z) :
  fresh E w = false ->
  BlockchainData.handler E req w
  = (Normal {| res_status := 200;
               res_body := VObj [("data", newData); ("lastUpdated", VStr stamp)] |}, w1) ->
  Date_parse stamp = Some t ->
  read_time E' w1 - t < 3600000 ->
  BlockchainData.handler E' req' w1
  = (Normal {| res_status := 200;
               res_body := VObj [("data", jsonify newData); ("lastUpdated", VStr stamp)] |},
     run_events E' cache_reads w1)
  /\ kv (run_events E' cache_reads w1) = kv w1
  /\ trace (run_events E' cache_reads w1) = trace w1 ++ cache_reads.
Proof.
  intros Hmiss Hrun Hparse Hlt.
  rewrite (read_handler_miss_run E req w Hmiss) in Hrun.
  injection Hrun as <- Hstamp <-.
  split; [by apply (read_after_refreshed E E' req' _ stamp t)|].
  split; [apply kv_run_events|apply trace_run_events].
Qed.

(** X6 at the sample environment: a read from the empty store, then a second
    read in the world it left. *)
Lemma read_after_refresh_hits_witness :
  exists newData stamp w1,
    @BlockchainData.handler Engine.engine Sample.E Sample.no_header Sample.w_empty
    = (Normal {| res_status := 200;
                 res_body := VObj [("data", newData); ("lastUpdated", VStr stamp)] |}, w1)
    /\ @BlockchainData.handler Engine.engine Sample.E Sample.no_header w1
       = (Normal {| res_status := 200;
                    res_body := VObj [("data", jsonify newData);
                                      ("lastUpdated", VStr stamp)] |},
          run_events Sample.E cache_reads w1).
Proof.
  eexists _, _, _. split; [by vm_compute|].
  eapply (@read_after_refresh_hits Engine.engine Sample.E Sample.E Sample.no_header
            Sample.no_header Sample.w_empty _ _ _ 1711843218245);
    by vm_compute.
Defined.

(** X7. What the refresh endpoint stores is what readers get: after an
    authorized refresh that answered with the timestamp [stamp], a read whose
    freshness check happens less than 3600000 ms after it answers 200 with that
    timestamp and a dataset that satisfies the Dataset invariant of the
    refresh, and calls no upstream service. *)
Theorem read_after_update_hits `{Platform} (E E' : env) (req req' : request)
    (w w1 : world) (stamp : string) (t : Z) :
  UpdateData.unauthorized (authorization req) = false ->
  UpdateData.handler E req w
  = (Normal {| res_status := 200;
               res_body := VObj [("success", VBool true); ("lastUpdated", VStr stamp)] |},
     w1) ->
  Date_parse stamp = Some t ->
  read_time E' w1 - t < 3600000 ->
  exists cachedData,
    BlockchainData.handler E' req' w1
    = (Normal {| res_status := 200;
                 res_body := VObj [("data", cachedData); ("lastUpdated", VStr stamp)] |},
       run_events E' cache_reads w1)
    /\ dataset_invariant E cachedData
    /\ fetched cache_reads = [].
Proof.
  intros Hauth Hrun Hparse Hlt.
  rewrite (update_handler_run E req w Hauth) in Hrun.
  injection Hrun as Hstamp <-.
  exists (jsonify (refresh_dataset E)).
  split; [by apply (read_after_refreshed E E' req' _ stamp t)|].
  split; [apply stored_dataset_invariant|done].
Qed.

(** X7 at the sample environment. *)
Lemma read_after_update_hits_witness :
  exists cachedData stamp w1,
    @UpdateData.handler Engine.engine Sample.E Sample.bearer_header Sample.w_empty
    = (Normal {| res_status := 200;
                 res_body := VObj [("success", VBool true); ("lastUpdated", VStr stamp)] |},
       w1)
    /\ @BlockchainData.handler Engine.engine Sample.E Sample.no_header w1
       = (Normal {| res_status := 200;
                    res_body := VObj [("data", cachedData); ("lastUpdated", VStr stamp)] |},
          run_events Sample.E cache_reads w1)
    /\ dataset_invariant Sample.E cachedData.
Proof.
  assert (exists stamp w1,
            @UpdateData.handler Engine.engine Sample.E Sample.bearer_header Sample.w_empty
            = (Normal {| res_status := 200;
                         res_body := VObj [("success", VBool true);
                                           ("lastUpdated", VStr stamp)] |}, w1)
            /\ @Date_parse Engine.engine stamp = Some 1711843218231
            /\ read_time Sample.E w1 - 1711843218231 < 3600000)
    as (stamp & w1 & Hrun & Hparse & Hlt).
  { eexists _, _. split; [by vm_compute|]. split; by vm_compute. }
  destruct (@read_after_update_hits Engine.engine Sample.E Sample.E Sample.bearer_header
              Sample.no_header Sample.w_empty w1 stamp 1711843218231 eq_refl Hrun Hparse Hlt)
    as (cachedData & Hread & Hinv & _).
  exists cachedData, stamp, w1. split; [exact Hrun|]. split; [exact Hread|exact Hinv].
Defined.

(** X8. The cache counts as fresh only with two truthy values and a
    timestamp the engine can parse: when the stored dataset or timestamp is
    falsy ([null], [false], 0, the empty string) or the timestamp is not a
    valid date, the read endpoint refreshes, however recent the entry: it
    answers with a new dataset and overwrites both keys. *)
Theorem falsy_or_unparsable_cache_refreshes `{Platform} (E : env) (req : request)
    (w : world) :
  truthy (cached w "blockchain_data") = false
  \/ truthy (cached w "last_updated") = false
  \/ new_Date (cached w "last_updated") = None ->
  exists newData stamp evs w',
    BlockchainData.handler E req w
    = (Normal {| res_status := 200;
                 res_body := VObj [("data", newData); ("lastUpdated", VStr stamp)] |}, w')
    /\ dataset_invariant E newData
    /\ trace w' = trace w ++ cache_reads ++ evs
                  ++ [EvKvSet "blockchain_data" newData; EvKvSet "last_updated" (VStr stamp)]
    /\ fetched evs = refresh_urls BlockchainData.BLOCKCHAIN_MAPPING
    /\ kv w' !! "blockchain_data" = Some (jsonify newData)
    /\ kv w' !! "last_updated" = Some (VStr stamp).
Proof.
  intros Hmiss.
  assert (fresh E w = false) as Hfresh.
  { unfold fresh. destruct Hmiss as [-> | [-> | ->]].
    - done.
    - by rewrite andb_false_r.
    - unfold elapsed_lt. by rewrite andb_false_r. }
  rewrite (read_handler_miss_run E req w Hfresh).
  destruct (refresh_events_fetched E) as [Hfetched _].
  eexists (refresh_dataset E), _, (refresh_events E), _. split; [reflexivity|].
  split; [apply refresh_dataset_invariant|]. unfold refreshed. cbn [trace kv].
  split; [with_strategy opaque [run_events] rewrite trace_run_events;
          by rewrite <- !app_assoc|].
  split; [exact Hfetched|].
  split; [rewrite lookup_insert_ne by done; apply lookup_insert_eq|apply lookup_insert_eq].
Qed.

(** X8 for a store whose timestamp is the text "yesterday" (the engine
    parses no date from it), beside a dataset. *)
Lemma falsy_or_unparsable_cache_refreshes_witness :
  exists newData stamp w',
    @BlockchainData.handler Engine.engine Sample.E Sample.no_header
      {| kv := <["last_updated" := VStr "yesterday"]>
                 (<["blockchain_data" := Sample.some_dataset]> ∅);
         clock := 1711843200000; trace := [] |}
    = (Normal {| res_status := 200;
                 res_body := VObj [("data", newData); ("lastUpdated", VStr stamp)] |}, w')
    /\ kv w' !! "last_updated" = Some (VStr stamp).
Proof.
  destruct (@falsy_or_unparsable_cache_refreshes Engine.engine Sample.E Sample.no_header
              {| kv := <["last_updated" := VStr "yesterday"]>
                         (<["blockchain_data" := Sample.some_dataset]> ∅);
                 clock := 1711843200000; trace := [] |})
    as (newData & stamp & evs & w' & Hrun & _ & _ & _ & _ & Hstamp).
  - right. right. by vm_compute.
  - exists newData, stamp, w'. split; [exact Hrun|exact Hstamp].
Defined.

(** ** The card *)

Section CardViewFacts.
Context `{Platform} (toLocaleString : value -> Z -> string).

(** The callback of the two [map]s throws exactly on [null] and
    [undefined], and then a TypeError. *)
Lemma map_elems_unreadable {B} (f : value -> completion B) (items : list value) :
  (forall item, readable item = false -> f item = Throw TypeError) ->
  (forall item, readable item = true -> exists y, f item = Normal y) ->
  Exists (fun item => readable item = false) items ->
  map_elems f items = Throw TypeError.
Proof.
  intros Hbad Hgood. induction 1 as [item items Hitem|item items _ IH]; simpl.
  - by rewrite (Hbad item Hitem).
  - destruct (readable item) eqn:Hr.
    + destruct (Hgood item Hr) as [y ->]. by rewrite IH.
    + by rewrite (Hbad item Hr).
Qed.

Lemma formattedTvlData_unreadable items :
  Exists (fun item => readable item = false) items ->
  formattedTvlData (VArr items) = Throw TypeError.
Proof.
  apply map_elems_unreadable.
  - by intros [].
  - intros item Hr. rewrite !(get_field_readable _ _ Hr). by eexists.
Qed.

Lemma formattedPriceData_unreadable items :
  Exists (fun item => readable item = false) items ->
  formattedPriceData (VArr items) = Throw TypeError.
Proof.
  apply map_elems_unreadable.
  - by intros [].
  - intros item Hr. rewrite !(get_field_readable _ _ Hr). by eexists.
Qed.

(** The card over two arrays of readable items, step by step. *)
Lemma BlockchainCard_run name tvlItems priceItems :
  Forall (fun item => readable item = true) tvlItems ->
  Forall (fun item => readable item = true) priceItems ->
  let tvls := map (fun item => prop_of item "tvl") tvlItems in
  let prices := map (fun item => prop_of item "price") priceItems in
  BlockchainCard toLocaleString name (VArr tvlItems) (VArr priceItems)
  = (tvlPanel ←
       (if 0 <? Z.of_nat (length tvlItems) then
          current ← localeText toLocaleString (fst (series_metrics tvls)) 2;
          mret (Chart (map (fun item => new_Date (prop_of item "date")) tvlItems) tvls
                  ("$" ++ current)%string (changeText (snd (series_metrics tvls)))
                  (changeColor (snd (series_metrics tvls))))
        else mret (NoData ("No TVL data available for " ++ name)%string));
     pricePanel ←
       (if 0 <? Z.of_nat (length priceItems) then
          current ← localeText toLocaleString (fst (series_metrics prices)) 4;
          mret (Chart (map (fun item => new_Date (prop_of item "date")) priceItems) prices
                  ("$" ++ current)%string (changeText (snd (series_metrics prices)))
                  (changeColor (snd (series_metrics prices))))
        else mret (NoData ("No price data available for " ++ name)%string));
     mret {| title := name; tvl_panel := tvlPanel; price_panel := pricePanel |}).
Proof.
  intros Htvl Hprice tvls prices. unfold BlockchainCard.
  rewrite (formattedTvlData_run _ Htvl), (formattedPriceData_run _ Hprice),
    (calculate_run _ _ Htvl Hprice).
  cbn [mbind completion_bind currentTvl tvlMonthlyChange currentPrice priceMonthlyChange].
  by rewrite !length_map, !map_map.
Qed.

End CardViewFacts.

(** The current value of a series is its last one. *)
Lemma series_metrics_current `{Platform} (f : value -> value) (items : list value)
    (last : value) :
  items !! (length items - 1)%nat = Some last ->
  fst (series_metrics (map f items)) = f last.
Proof.
  intros Hlast. unfold series_metrics. rewrite length_map.
  assert (0 < length items)%nat as Hpos by (destruct items; [done|simpl; lia]).
  replace (0 <? Z.of_nat (length items)) with true by (symmetry; apply Z.ltb_lt; lia).
  replace (Z.to_nat (Z.of_nat (length items) - 1)) with (length items - 1)%nat by lia.
  by rewrite lookup_map, Hlast.
Qed.

(** X9. Empty series: the card of a chain without data shows the two
    placeholders naming the chain, and its metrics are all 0; and whenever the
    card renders at all, an empty TVL series gives the TVL placeholder and an
    empty price series the price placeholder. *)
Theorem empty_series_show_placeholders `{Platform} (toLocaleString : value -> Z -> string)
    (name : string) :
  BlockchainCard toLocaleString name (VArr []) (VArr [])
  = Normal {| title := name;
              tvl_panel := NoData ("No TVL data available for " ++ name)%string;
              price_panel := NoData ("No price data available for " ++ name)%string |}
  /\ calculate (VArr []) (VArr [])
     = Normal {| currentTvl := VNum 0; tvlMonthlyChange := 0%float;
                 currentPrice := VNum 0; priceMonthlyChange := 0%float |}
  /\ (forall priceData view,
        BlockchainCard toLocaleString name (VArr []) priceData = Normal view ->
        tvl_panel view = NoData ("No TVL data available for " ++ name)%string)
  /\ (forall tvlData view,
        BlockchainCard toLocaleString name tvlData (VArr []) = Normal view ->
        price_panel view = NoData ("No price data available for " ++ name)%string).
Proof.
  split; [reflexivity|]. split; [reflexivity|]. split.
  - intros priceData view. unfold BlockchainCard. simpl.
    destruct (formattedPriceData priceData) as [fp|]; [|done]. simpl.
    destruct (calculate _ _) as [m|]; [|done]. simpl.
    destruct (0 <? _); simpl; [destruct (localeText _ _ _); simpl|]; by intros [= <-].
  - intros tvlData view. unfold BlockchainCard.
    destruct (formattedTvlData tvlData) as [ft|]; [|done]. simpl.
    destruct (calculate _ _) as [m|]; [|done]. simpl.
    destruct (0 <? _); simpl; [destruct (localeText _ _ _); simpl|]; by intros [= <-].
Qed.

(** X10. With more than 30 points the month-ago value is the one 30 places
    before the last (index length - 31), for the TVL and for the price series
    alike, and the current value is the last one. *)
Theorem long_series_look_back_30_points `{Platform} :
  (forall tvlItems priceItems last monthAgo,
     Forall (fun item => readable item = true) tvlItems ->
     Forall (fun item => readable item = true) priceItems ->
     (30 < length tvlItems)%nat ->
     tvlItems !! (length tvlItems - 1)%nat = Some last ->
     tvlItems !! (length tvlItems - 31)%nat = Some monthAgo ->
     exists m,
       calculate (VArr tvlItems) (VArr priceItems) = Normal m
       /\ currentTvl m = prop_of last "tvl"
       /\ tvlMonthlyChange m
          = monthlyChange (prop_of last "tvl") (prop_of monthAgo "tvl"))
  /\ (forall tvlItems priceItems last monthAgo,
        Forall (fun item => readable item = true) tvlItems ->
        Forall (fun item => readable item = true) priceItems ->
        (30 < length priceItems)%nat ->
        priceItems !! (length priceItems - 1)%nat = Some last ->
        priceItems !! (length priceItems - 31)%nat = Some monthAgo ->
        exists m,
          calculate (VArr tvlItems) (VArr priceItems) = Normal m
          /\ currentPrice m = prop_of last "price"
          /\ priceMonthlyChange m
             = monthlyChange (prop_of last "price") (prop_of monthAgo "price")).
Proof.
  assert (forall (f : value -> value) items last monthAgo,
            (30 < length items)%nat ->
            items !! (length items - 1)%nat = Some last ->
            items !! (length items - 31)%nat = Some monthAgo ->
            series_metrics (map f items) = (f last, monthlyChange (f last) (f monthAgo)))
    as Hlong.
  { intros f items last monthAgo Hlen Hlast Hago. unfold series_metrics.
    rewrite length_map.
    replace (0 <? Z.of_nat (length items)) with true by (symmetry; apply Z.ltb_lt; lia).
    replace (monthAgoIndex (Z.of_nat (length items))) with (Z.of_nat (length items) - 31)
      by (unfold monthAgoIndex; destruct (30 <? _) eqn:Hlong; lia).
    replace (Z.to_nat (Z.of_nat (length items) - 1)) with (length items - 1)%nat by lia.
    replace (Z.to_nat (Z.of_nat (length items) - 31)) with (length items - 31)%nat by lia.
    by rewrite !lookup_map, Hlast, Hago. }
  split.
  - intros tvlItems priceItems last monthAgo Htvl Hprice Hlen Hlast Hago.
    eexists. split; [apply (calculate_run _ _ Htvl Hprice)|]. simpl.
    by rewrite (Hlong _ _ _ _ Hlen Hlast Hago).
  - intros tvlItems priceItems last monthAgo Htvl Hprice Hlen Hlast Hago.
    eexists. split; [apply (calculate_run _ _ Htvl Hprice)|]. simpl.
    by rewrite (Hlong _ _ _ _ Hlen Hlast Hago).
Qed.

(** X10 on thirty-one points: the lookback falls on the first one. *)
Lemma long_series_look_back_30_points_witness :
  exists m,
    @calculate Engine.engine (VArr (map Sample.tvl_point_at (seq 59 31))) (VArr [])
    = Normal m
    /\ currentTvl m = VNum 150
    /\ tvlMonthlyChange m = 25%float.
Proof.
  destruct (proj1 (@long_series_look_back_30_points Engine.engine)
              (map Sample.tvl_point_at (seq 59 31)) [] (Sample.tvl_point_at 89)
              (Sample.tvl_point_at 59))
    as (m & Hrun & Hcurrent & Hchange).
  - repeat constructor.
  - constructor.
  - vm_compute. lia.
  - reflexivity.
  - reflexivity.
  - exists m. split; [exact Hrun|]. rewrite Hcurrent, Hchange. split; by vm_compute.
Defined.

(** X11. The metrics need arrays of objects: a series that is not an array
    ([undefined], [null], an object, ...) or that holds a [null] element makes
    the computation throw a TypeError, for the TVL and for the price series. *)
Theorem metrics_need_arrays_of_objects `{Platform} :
  (forall tvlData priceData,
     (forall items, tvlData <> VArr items) ->
     calculate tvlData priceData = Throw TypeError)
  /\ (forall tvlItems priceData,
        Exists (fun item => readable item = false) tvlItems ->
        calculate (VArr tvlItems) priceData = Throw TypeError)
  /\ (forall tvlItems priceData,
        Forall (fun item => readable item = true) tvlItems ->
        (forall items, priceData <> VArr items) ->
        calculate (VArr tvlItems) priceData = Throw TypeError)
  /\ (forall tvlItems priceItems,
        Forall (fun item => readable item = true) tvlItems ->
        Exists (fun item => readable item = false) priceItems ->
        calculate (VArr tvlItems) (VArr priceItems) = Throw TypeError).
Proof.
  repeat split.
  - intros tvlData priceData Hnot. unfold calculate.
    destruct tvlData; try done. by destruct (Hnot elems).
  - intros tvlItems priceData Hbad. unfold calculate.
    by rewrite (formattedTvlData_unreadable _ Hbad).
  - intros tvlItems priceData Htvl Hnot. unfold calculate.
    rewrite (formattedTvlData_run _ Htvl). cbn [mbind completion_bind].
    destruct priceData; try done. by destruct (Hnot elems).
  - intros tvlItems priceItems Htvl Hbad. unfold calculate.
    rewrite (formattedTvlData_run _ Htvl). cbn [mbind completion_bind].
    by rewrite (formattedPriceData_unreadable _ Hbad).
Qed.

(** X11 on a series passed as [undefined], and on one holding [null]. *)
Lemma metrics_need_arrays_of_objects_witness :
  @calculate Engine.engine VUndef (VArr []) = Throw TypeError
  /\ @calculate Engine.engine (VArr [Sample.tvl_point_at 0; VNull]) (VArr [])
     = Throw TypeError.
Proof.
  destruct (@metrics_need_arrays_of_objects Engine.engine) as (Hshape & Hitem & _).
  split.
  - by apply Hshape.
  - apply Hitem. right. by left.
Defined.

(** X12. A current value that is [null] or [undefined] (the last point has
    no [tvl], or a [null] one) breaks the card: the metrics are computed, but
    the "Current TVL" tile calls [toLocaleString] on the value and the render
    throws a TypeError. *)
Theorem missing_current_value_breaks_the_card `{Platform}
    (toLocaleString : value -> Z -> string) (name : string)
    (tvlItems priceItems : list value) (last : value) :
  Forall (fun item => readable item = true) tvlItems ->
  Forall (fun item => readable item = true) priceItems ->
  tvlItems !! (length tvlItems - 1)%nat = Some last ->
  prop_of last "tvl" = VUndef \/ prop_of last "tvl" = VNull ->
  (exists m, calculate (VArr tvlItems) (VArr priceItems) = Normal m)
  /\ BlockchainCard toLocaleString name (VArr tvlItems) (VArr priceItems)
     = Throw TypeError.
Proof.
  intros Htvl Hprice Hlast Hvalue.
  split; [eexists; apply (calculate_run _ _ Htvl Hprice)|].
  rewrite (BlockchainCard_run toLocaleString name _ _ Htvl Hprice).
  assert (0 < length tvlItems)%nat as Hpos by (destruct tvlItems; [done|simpl; lia]).
  replace (0 <? Z.of_nat (length tvlItems)) with true by (symmetry; apply Z.ltb_lt; lia).
  rewrite (series_metrics_current (fun item => prop_of item "tvl") _ _ Hlast).
  by destruct Hvalue as [-> | ->].
Qed.

(** X12 on two points, the last without [tvl]. *)
Lemma missing_current_value_breaks_the_card_witness :
  @BlockchainCard Engine.engine (fun _ _ => "1.00") "Aptos"
    (VArr [Sample.tvl_point_at 0; VObj [("date", VStr "2024-01-02T00:00:00.000Z")]])
    (VArr [])
  = Throw TypeError.
Proof.
  apply (@missing_current_value_breaks_the_card Engine.engine (fun _ _ => "1.00") "Aptos"
           [Sample.tvl_point_at 0; VObj [("date", VStr "2024-01-02T00:00:00.000Z")]] []
           (VObj [("date", VStr "2024-01-02T00:00:00.000Z")]));
    try (repeat constructor).
Defined.

(** ** The page *)

(** X13. [fetchData] always ends with [loading] and [refreshing] false, and
    the manual refresh ends in the same state. It looks at the body only, never
    at the status: any JSON body other than [null] replaces [data] with its
    [data] property and [lastUpdated] with the date of its [lastUpdated]
    property, with nothing logged; a rejected fetch, a body that is not JSON, or
    the body [null] leaves [data] and [lastUpdated] as they were and logs one
    error. *)
Theorem fetchData_settles `{Platform} (answer : fetch_result) (s : page_state) :
  loading (fst (fetchData answer s)) = false
  /\ refreshing (fst (fetchData answer s)) = false
  /\ handleRefresh answer s = fetchData answer s
  /\ (forall st result,
        answer = FetchResolves {| status := st; body := Some result |} ->
        readable result = true ->
        fetchData answer s
        = ({| data := prop_of result "data";
              lastUpdated := Some (new_Date (prop_of result "lastUpdated"));
              loading := false; refreshing := false |}, []))
  /\ (answer = FetchRejects
      \/ (exists st, answer = FetchResolves {| status := st; body := None |})
      \/ (exists st result, answer = FetchResolves {| status := st; body := Some result |}
                            /\ readable result = false) ->
      exists error,
        fetchData answer s
        = ({| data := data s; lastUpdated := lastUpdated s;
              loading := false; refreshing := false |},
           [EvConsoleError "Error fetching data:" (Some error)])).
Proof.
  unfold handleRefresh, fetchData.
  split; [|split; [|split; [|split]]].
  - destruct answer as [|[st [result|]]]; simpl; try done;
      destruct (get_field result "data"); simpl; try done;
      by destruct (get_field result "lastUpdated").
  - destruct answer as [|[st [result|]]]; simpl; try done;
      destruct (get_field result "data"); simpl; try done;
      by destruct (get_field result "lastUpdated").
  - destruct answer as [|[st [result|]]]; simpl; try done;
      destruct (get_field result "data"); simpl; try done;
      by destruct (get_field result "lastUpdated").
  - intros st result -> Hr. simpl. by rewrite !(get_field_readable _ _ Hr).
  - intros [-> | [[st ->] | (st & result & -> & Hr)]]; simpl; [by eexists..|].
    exists TypeError. by destruct result.
Qed.

(** X14. An answer whose JSON body has no [data] property (an error body,
    for instance, whatever its status) is accepted by [fetchData]: [data]
    becomes [undefined], nothing is logged, and the next render of the page
    throws a TypeError on [data.tvl_data]. *)
Theorem body_without_data_breaks_the_page `{Platform}
    (toLocaleString : value -> Z -> string) (st : Z) (result : value) (s : page_state) :
  readable result = true ->
  prop_of result "data" = VUndef \/ prop_of result "data" = VNull ->
  snd (fetchData (FetchResolves {| status := st; body := Some result |}) s) = []
  /\ render toLocaleString
       (fst (fetchData (FetchResolves {| status := st; body := Some result |}) s))
     = Throw TypeError.
Proof.
  intros Hr Hdata. unfold fetchData. simpl.
  rewrite !(get_field_readable _ _ Hr). simpl. split; [done|].
  unfold render. simpl. by destruct Hdata as [-> | ->].
Qed.

(** X14 for the answer 500 [{error: "Internal Server Error"}] at first load. *)
Lemma body_without_data_breaks_the_page_witness :
  @render Engine.engine (fun _ _ => "1.00")
    (fst (@fetchData Engine.engine
            (FetchResolves {| status := 500;
                              body := Some (VObj [("error", VStr "Internal Server Error")]) |})
            initial))
  = Throw TypeError.
Proof.
  apply (@body_without_data_breaks_the_page Engine.engine (fun _ _ => "1.00") 500
           (VObj [("error", VStr "Internal Server Error")]) initial); [reflexivity|].
  by left.
Defined.

(** X15. When the first poll fails (the fetch is rejected, or the body is
    not JSON), the page leaves the loading screen and shows, with no date and an
    enabled button, the nine cards in the order of the mapping, each with its
    two placeholders. *)
Theorem failed_first_poll_shows_placeholders `{Platform}
    (toLocaleString : value -> Z -> string) (answer : fetch_result) :
  answer = FetchRejects
  \/ (exists st, answer = FetchResolves {| status := st; body := None |}) ->
  render toLocaleString initial = Normal Loading
  /\ render toLocaleString (fst (fetchData answer initial))
     = Normal (Page None "Refresh Data Now" false
                 (map (fun name =>
                         {| title := name;
                            tvl_panel := NoData ("No TVL data available for " ++ name)%string;
                            price_panel :=
                              NoData ("No price data available for " ++ name)%string |})
                    chain_names)).
Proof.
  intros [-> | [st ->]]; split; reflexivity.
Qed.

(** X15 for a rejected fetch. *)
Lemma failed_first_poll_shows_placeholders_witness :
  exists cards,
    @render Engine.engine (fun _ _ => "1.00")
      (fst (@fetchData Engine.engine FetchRejects initial))
    = Normal (Page None "Refresh Data Now" false cards)
    /\ length cards = 9%nat.
Proof.
  eexists. split.
  - apply (@failed_first_poll_shows_placeholders Engine.engine (fun _ _ => "1.00")
             FetchRejects). by left.
  - reflexivity.
Defined.

Section EndToEnd.
Context `{Platform} (E : env).

(** The body a browser receives after a read that refreshed. *)
Lemma delivered_refresh stamp :
  delivered {| res_status := 200;
               res_body := VObj [("data", refresh_dataset E); ("lastUpdated", VStr stamp)] |}
  = FetchResolves
      {| status := 200;
         body := Some (VObj [("data",
                              dataset_of
                                (stored_entries
                                   (tvl_entries (series_of (UpdateData.fetchTvlData E))
                                      UpdateData.BLOCKCHAIN_MAPPING))
                                (stored_entries
                                   (price_entries (series_of (UpdateData.fetchPriceData E))
                                      UpdateData.BLOCKCHAIN_MAPPING)));
                             ("lastUpdated", VStr stamp)]) |}.
Proof.
  unfold delivered. cbn [res_status res_body].
  destruct (refresh_entries_defined E) as [Htvl Hprice].
  rewrite jsonify_object.
  - unfold stored_entries at 1. cbn [map fst snd jsonify].
    by rewrite refresh_dataset_eq, (jsonify_dataset _ _ Htvl Hprice).
  - rewrite refresh_dataset_eq. by repeat constructor.
Qed.

End EndToEnd.

(** X16. From the read endpoint to the cards: after a read that refreshed,
    the page that takes the answer in (from any state) hands the card of every
    chain of the mapping the JSON form of the two series the fetchers returned
    for that chain, never the [[]] default of a missing key; and the card of a
    chain whose two upstream calls failed shows its two placeholders. *)
Theorem page_shows_what_the_refresh_fetched `{Platform}
    (toLocaleString : value -> Z -> string) (E : env) (req : request) (w : world)
    (s : page_state) :
  fresh E w = false ->
  exists resp tvl_data price_data,
    fst (BlockchainData.handler E req w) = Normal resp
    /\ snd (fetchData (delivered resp) s) = []
    /\ get_field (data (fst (fetchData (delivered resp) s))) "tvl_data" = Normal tvl_data
    /\ get_field (data (fst (fetchData (delivered resp) s))) "price_data"
       = Normal price_data
    /\ forall name ids, In (name, ids) Dashboard.BLOCKCHAIN_MAPPING ->
         (forall w0,
            exists tvl_series price_series,
              fst (BlockchainData.fetchTvlData E (defillama ids) w0) = Normal tvl_series
              /\ fst (BlockchainData.fetchPriceData E (coingecko ids) w0)
                 = Normal price_series
              /\ seriesFor tvl_data name = jsonify tvl_series
              /\ seriesFor price_data name = jsonify price_series)
         /\ (upstream_fails (upstream E (tvl_url (defillama ids))) = true ->
             upstream_fails (upstream E (price_url (coingecko ids))) = true ->
             BlockchainCard toLocaleString name (seriesFor tvl_data name)
               (seriesFor price_data name)
             = Normal {| title := name;
                         tvl_panel := NoData ("No TVL data available for " ++ name)%string;
                         price_panel :=
                           NoData ("No price data available for " ++ name)%string |}).
Proof.
  intros Hmiss. rewrite (read_handler_miss_run E req w Hmiss). cbn [fst].
  eexists _, _, _. split; [reflexivity|]. rewrite delivered_refresh.
  unfold fetchData. cbn [body mbind completion_bind get_field lookup_prop String.eqb
                         Ascii.eqb Bool.eqb default from_option id mret completion_ret
                         fst snd data dataset_of].
  split; [reflexivity|]. split; [reflexivity|]. split; [reflexivity|].
  intros name ids Hin.
  change Dashboard.BLOCKCHAIN_MAPPING with UpdateData.BLOCKCHAIN_MAPPING in Hin.
  assert (seriesFor
            (VObj (stored_entries
                     (tvl_entries (series_of (UpdateData.fetchTvlData E))
                        UpdateData.BLOCKCHAIN_MAPPING))) name
          = jsonify (series_of (UpdateData.fetchTvlData E) (defillama ids))) as Htvl.
  { unfold seriesFor. rewrite lookup_stored_entries,
      (lookup_tvl_entries _ _ name ids mapping_keys_distinct Hin).
    by destruct (tvl_series_is_array E (defillama ids)) as [pts ->]. }
  assert (seriesFor
            (VObj (stored_entries
                     (price_entries (series_of (UpdateData.fetchPriceData E))
                        UpdateData.BLOCKCHAIN_MAPPING))) name
          = jsonify (series_of (UpdateData.fetchPriceData E) (coingecko ids))) as Hprice.
  { unfold seriesFor. rewrite lookup_stored_entries,
      (lookup_price_entries _ _ name ids mapping_keys_distinct Hin).
    by destruct (price_series_is_array E (coingecko ids)) as [pts ->]. }
  split.
  - intros w0. eexists _, _.
    change (BlockchainData.fetchTvlData E) with (UpdateData.fetchTvlData E).
    change (BlockchainData.fetchPriceData E) with (UpdateData.fetchPriceData E).
    rewrite (fetchTvlData_performs E (defillama ids) w0),
      (fetchPriceData_performs E (coingecko ids) w0).
    by repeat split.
  - intros Hft Hfp. rewrite Htvl, Hprice.
    rewrite (tvl_series_on_failure E _ Hft), (price_series_on_failure E _ Hfp).
    reflexivity.
Qed.

(** X16 at the sample environment: after a read from the empty store, the
    card of Avalanche (both calls answered 429) shows its placeholders. *)
Lemma page_shows_what_the_refresh_fetched_witness :
  exists resp tvl_data price_data,
    fst (@BlockchainData.handler Engine.engine Sample.E Sample.no_header Sample.w_empty)
    = Normal resp
    /\ get_field (data (fst (@fetchData Engine.engine (delivered resp) initial))) "tvl_data"
       = Normal tvl_data
    /\ get_field (data (fst (@fetchData Engine.engine (delivered resp) initial)))
         "price_data" = Normal price_data
    /\ @BlockchainCard Engine.engine (fun _ _ => "1.00") "Avalanche"
         (seriesFor tvl_data "Avalanche") (seriesFor price_data "Avalanche")
       = Normal {| title := "Avalanche";
                   tvl_panel := NoData "No TVL data available for Avalanche";
                   price_panel := NoData "No price data available for Avalanche" |}.
Proof.
  destruct (@page_shows_what_the_refresh_fetched Engine.engine (fun _ _ => "1.00")
              Sample.E Sample.no_header Sample.w_empty initial)
    as (resp & tvl_data & price_data & Hresp & _ & Htvl & Hprice & Hcards);
    [reflexivity|].
  exists resp, tvl_data, price_data. split; [exact Hresp|]. split; [exact Htvl|].
  split; [exact Hprice|].
  apply (proj2 (Hcards "Avalanche"
                  {| defillama := "Avalanche"; coingecko := "avalanche-2" |}
                  ltac:(right; by left))); reflexivity.
Defined.
